(** * Area boundary to surface converter: the processor and its batch loop

    A shallow embedding of [main.py] (class [AreaBoundaryProcessor] and the
    per-boundary loop of [automate_function]) and the properties its
    specification states about it.

    Numbers are Python floats, that is IEEE 754 binary64 values: they are
    modelled by Rocq's primitive floats, whose operations are the same
    binary64 operations.  Python exceptions are modelled by an error monad. *)

From Stdlib Require Import Floats ZArith List String Reals Lra Lia.
From stdpp Require Import gmap strings list fin_maps.

Set Warnings "-register-all,-inexact-float".

(** ** Python exceptions *)

Module Py.

Inductive error : Set :=
| ZeroDivisionError
| TypeError.

Inductive result (A : Type) : Type :=
| Ok (a : A)
| Raise (e : error).
Arguments Ok {A} a.
Arguments Raise {A} e.

Definition bind {A B} (m : result A) (k : A -> result B) : result B :=
  match m with
  | Ok a => k a
  | Raise e => Raise e
  end.

(** [a / b] on floats raises on a zero divisor (of either sign). *)
Definition truediv (a b : float) : result float :=
  if PrimFloat.eqb b 0%float then Raise ZeroDivisionError
  else Ok (PrimFloat.div a b).

(** [sum(xs)]: the accumulator starts at the integer 0, which the first
    addition converts to the float 0.0; the terms are added from left to
    right (CPython up to 3.11; later versions compensate the sum of
    floats). *)
Definition sum (xs : list float) : float :=
  fold_left PrimFloat.add xs 0%float.

End Py.

Import Py.

#[global] Instance result_ret : MRet result := @Ok.
#[global] Instance result_bind : MBind result := fun A B k m => Py.bind m k.

(** ** Data model *)

(** [specklepy.objects.geometry.Point]. *)
Record Point : Set := mkPoint { x : float; y : float; z : float }.

(** A [Base]-derived geometry object as the processor probes it: its
    [speckle_type] and the four geometric attributes [get_curve_points]
    looks for; [None] stands for an attribute the object does not have.
    Whether such an object counts as a curve is decided by [is_curve].
    An attribute that is present holds what its declared type says, a
    [Point] or a list of [Point]s: an object whose attribute is present
    but unset (a [Line()] without endpoints) is not represented. *)
Record Curve : Set := mkCurve {
  speckle_type : string;
  start : option Point;
  end_ : option Point;
  points : option (list Point);
  controlPoints : option (list Point)
}.

(** Attribute values of boundaries and meshes. *)
Inductive value : Type :=
| VNone
| VInt (n : Z)
| VNum (f : float)
| VStr (s : string)
| VList (l : list value)
| VDict (d : gmap string value)
| VBase (c : Curve).

(** A [Base] object with dynamic attributes (a boundary, a mesh):
    [hasattr] is [is_Some] of the lookup and [setattr] is [insert], the
    assignment of a plain Python object.  What the classes of [specklepy]
    add to it (attributes they declare with defaults, the checks and
    conversions they run when a declared attribute is set) is not in the
    sources and is not modelled: statements about the attributes of a
    surface are about values that the mesh stores as given. *)
Abbreviation Base := (gmap string value).

(** ** AreaBoundaryProcessor *)

Section Processor.

(** [self.tolerance] *)
Variable tolerance : float.

Definition vsub (p q : Point) : list float :=
  [PrimFloat.sub (x p) (x q); PrimFloat.sub (y p) (y q); PrimFloat.sub (z p) (z q)].

(** The list comprehension over [range(3)] / over the three components. *)
Definition nth3 (v : list float) (i : nat) : float := nth i v 0%float.

Definition cross (v1 v2 : list float) : list float :=
  [ PrimFloat.sub (PrimFloat.mul (nth3 v1 1) (nth3 v2 2)) (PrimFloat.mul (nth3 v1 2) (nth3 v2 1));
    PrimFloat.sub (PrimFloat.mul (nth3 v1 2) (nth3 v2 0)) (PrimFloat.mul (nth3 v1 0) (nth3 v2 2));
    PrimFloat.sub (PrimFloat.mul (nth3 v1 0) (nth3 v2 1)) (PrimFloat.mul (nth3 v1 1) (nth3 v2 0)) ].

(** [math.sqrt(sum(n * n for n in normal))]; the argument is a sum of
    squares, so [math.sqrt] is never outside its domain. *)
Definition vec_length (normal : list float) : float :=
  PrimFloat.sqrt (Py.sum (map (fun n => PrimFloat.mul n n) normal)).

(** [[n / normal_length for n in normal]] *)
Fixpoint normalize (normal : list float) (normal_length : float)
  : result (list float) :=
  match normal with
  | [] => Ok []
  | n :: rest =>
      q ← Py.truediv n normal_length;
      qs ← normalize rest normal_length;
      Ok (q :: qs)
  end.

(** [abs(sum(to_point[i] * normal[i] for i in range(3)))] *)
Definition plane_distance (p1 : Point) (normal : list float) (point : Point) : float :=
  let to_point := vsub point p1 in
  PrimFloat.abs
    (Py.sum (map (fun i => PrimFloat.mul (nth3 to_point i) (nth3 normal i)) (seq 0 3))).

(** The loop over [points[3:]] with its early [return False]. *)
Fixpoint check_rest (p1 : Point) (normal : list float) (rest : list Point) : bool :=
  match rest with
  | [] => true
  | point :: rest' =>
      if PrimFloat.ltb tolerance (plane_distance p1 normal point) then false
      else check_rest p1 normal rest'
  end.

Definition points_are_coplanar (points : list Point) : result bool :=
  if (length points <? 4)%nat then Ok true
  else
    match points with
    | p1 :: p2 :: p3 :: rest =>
        let v1 := vsub p2 p1 in
        let v2 := vsub p3 p1 in
        let normal := cross v1 v2 in
        let normal_length := vec_length normal in
        if PrimFloat.ltb normal_length tolerance then Ok true
        else
          normal ← normalize normal normal_length;
          Ok (check_rest p1 normal rest)
    | _ => Ok true
    end.

Definition get_curve_points (curve : Curve) : list Point :=
  match start curve, end_ curve with
  | Some s, Some e => [s; e]
  | _, _ =>
      match points curve with
      | Some ps => ps
      | None =>
          match controlPoints curve with
          | Some cps => cps
          | None => []
          end
      end
  end.

Definition curves_are_coplanar (curves : list Curve) : result bool :=
  if (length curves <? 2)%nat then Ok true
  else
    let points := flat_map get_curve_points curves in
    if (length points <? 3)%nat then Ok true
    else points_are_coplanar points.

(** [curve_type in s]: substring test. *)
Fixpoint contains (needle hay : string) : bool :=
  if String.prefix needle hay then true
  else
    match hay with
    | EmptyString => false
    | String _ hay' => contains needle hay'
    end.

Definition curve_types : list string :=
  ["Line"; "Polyline"; "Curve"; "Arc"; "Circle"; "Ellipse"]%string.

(** Only a [Base] instance can be a curve; its [speckle_type] must contain
    one of [curve_types]. *)
Definition is_curve (obj : value) : bool :=
  match obj with
  | VBase c => existsb (fun curve_type => contains curve_type (speckle_type c)) curve_types
  | _ => false
  end.

Definition as_curve (obj : value) : option Curve :=
  match obj with
  | VBase c => if is_curve obj then Some c else None
  | _ => None
  end.

Definition possible_curve_attrs : list string :=
  ["curves"; "outline"; "boundary"; "geometry"; "displayValue"]%string.

Definition extract_curves_from_boundary (boundary : Base) : list Curve :=
  foldl
    (fun curves attr_name =>
       match boundary !! attr_name with
       | None => curves
       | Some (VList attr_value) => curves ++ omap as_curve attr_value
       | Some attr_value =>
           match as_curve attr_value with
           | Some c => curves ++ [c]
           | None => curves
           end
       end)
    [] possible_curve_attrs.

Definition group_curves_into_loops (curves : list Curve) : list (list Curve) :=
  match curves with
  | [] => []
  | _ => [curves]
  end.

(** [Mesh(vertices=vertices, faces=faces)] *)
Definition Mesh (vertices : list float) (faces : list Z) : Base :=
  <["faces" := VList (VInt <$> faces)]>
    (<["vertices" := VList (VNum <$> vertices)]> ∅).

Definition mesh_vertices (points : list Point) : list float :=
  flat_map (fun point => [x point; y point; z point]) points.

(** [range(1, len(points) - 1)], each [i] contributing [[0, i, i + 1]]. *)
Definition mesh_faces (points : list Point) : list Z :=
  if (3 <=? length points)%nat then
    flat_map (fun i => [0; i; i + 1]%Z)
             (Z.of_nat <$> seq 1 (length points - 1 - 1))
  else [].

Definition create_mesh_from_points (points : list Point) : Base :=
  Mesh (mesh_vertices points) (mesh_faces points).

(** The loop [for key, value in metadata.items(): setattr(mesh, key, value)]. *)
Definition transfer_metadata (metadata : gmap string value) (mesh : Base) : Base :=
  map_fold (fun key value mesh => <[key := value]> mesh) mesh metadata.

Definition mark_converted (mesh : Base) : Base :=
  <["converted_from" := VStr "AreaBoundary"]>
    (<["speckle_type" := VStr "Objects.Geometry.Mesh"]> mesh).

(** Returns [None] where the source returns [None]; the attributes are set
    as on a plain object (see [Base]). *)
Definition create_surface_from_curves
    (curves : list Curve) (metadata : gmap string value) : option Base :=
  let all_points := flat_map get_curve_points curves in
  if (length all_points <? 3)%nat then None
  else
    let mesh := create_mesh_from_points all_points in
    let mesh := transfer_metadata metadata mesh in
    Some (mark_converted mesh).

Definition preserve_attrs : list string :=
  ["area"; "perimeter"; "name"; "number"; "level"; "roomNumber"; "roomName";
   "department"; "occupancy"; "parameters"; "properties"; "units"]%string.

(** [metadata.update(d)] is the union in which [d] wins. *)
Definition extract_metadata (boundary : Base) : gmap string value :=
  let metadata :=
    foldl
      (fun metadata attr =>
         match boundary !! attr with
         | Some v => <[attr := v]> metadata
         | None => metadata
         end)
      ∅ preserve_attrs in
  match boundary !! "parameters" with
  | Some (VDict parameters) => parameters ∪ metadata
  | _ => metadata
  end.

End Processor.

(** ** The per-boundary loop of [automate_function] *)

(** [n < f] for a Python int and a float compares the exact values. *)
Definition int_lt_float (n : Z) (f : float) : bool :=
  match Prim2SF f with
  | S754_nan => false
  | S754_infinity s => negb s
  | S754_zero _ => (n <? 0)%Z
  | S754_finite s m e =>
      let fm := if s then Z.neg m else Z.pos m in
      if (0 <=? e)%Z then (n <? fm * 2 ^ e)%Z else (n * 2 ^ (- e) <? fm)%Z
  end.

(** [v < threshold]; only numbers are ordered against a float. *)
Definition py_lt (v : value) (threshold : float) : result bool :=
  match v with
  | VNum f => Ok (PrimFloat.ltb f threshold)
  | VInt n => Ok (int_lt_float n threshold)
  | _ => Raise TypeError
  end.

(** The entries of [failed_conversions]: boundary index and reason
    ("No curves found", "Curves not coplanar", or the text of the caught
    exception). *)
Inductive failure_reason : Set :=
| NoCurvesFound
| CurvesNotCoplanar
| Exception (e : error).

Record state : Type := mkState {
  converted_surfaces : list Base;
  failed_conversions : list (nat * failure_reason)
}.

Definition add_failure (st : state) (i : nat) (r : failure_reason) : state :=
  mkState (converted_surfaces st) (failed_conversions st ++ [(i, r)]).

Definition add_surface (st : state) (surface : Base) : state :=
  mkState (converted_surfaces st ++ [surface]) (failed_conversions st).

Section Automate.

(** [function_inputs.surface_tolerance] and
    [function_inputs.min_area_threshold] *)
Variables surface_tolerance min_area_threshold : float.

(** ["area" in metadata and metadata["area"] < min_area_threshold] *)
Definition below_area_threshold (metadata : gmap string value) : result bool :=
  match metadata !! "area" with
  | None => Ok false
  | Some area => py_lt area min_area_threshold
  end.

(** One iteration of [for i, boundary in enumerate(boundaries)], the
    [except Exception] handler included. *)
Definition process_boundary (st : state) (i : nat) (boundary : Base) : state :=
  let curves := extract_curves_from_boundary boundary in
  match curves with
  | [] => add_failure st i NoCurvesFound
  | _ =>
      match curves_are_coplanar surface_tolerance curves with
      | Raise e => add_failure st i (Exception e)
      | Ok false => add_failure st i CurvesNotCoplanar
      | Ok true =>
          let metadata := extract_metadata boundary in
          match below_area_threshold metadata with
          | Raise e => add_failure st i (Exception e)
          | Ok true => st
          | Ok false =>
              let curve_loops := group_curves_into_loops curves in
              foldl
                (fun st loop =>
                   match create_surface_from_curves loop metadata with
                   | Some surface => add_surface st surface
                   | None => st
                   end)
                st curve_loops
          end
      end
  end.

Fixpoint process_from (st : state) (i : nat) (boundaries : list Base) : state :=
  match boundaries with
  | [] => st
  | boundary :: rest => process_from (process_boundary st i boundary) (S i) rest
  end.

Definition process_boundaries (boundaries : list Base) : state :=
  process_from (mkState [] []) 0 boundaries.

End Automate.

(** ** The whole run of [automate_function]

    The objects found by [flatten_base] are the input; what the function
    does to its [automate_context] is the sequence of calls it makes.  The
    texts of the messages are represented by their variable parts. *)

Record FunctionInputs : Set := mkInputs {
  surface_tolerance : float;
  preserve_original : bool;
  merge_holes : bool;
  min_area_threshold : float
}.

(** The [Field] defaults. *)
Definition default_inputs : FunctionInputs := mkInputs 0.01 true true 0.1.

(** The test on [str(obj.speckle_type)] that selects the boundaries. *)
Definition is_area_type (speckle_type : string) : bool :=
  contains "AreaBoundary" speckle_type || contains "Area" speckle_type.

(** [hasattr(obj, "speckle_type") and ...]; a [speckle_type] is a string
    wherever an object has one ([str] of [None] or of a number holds no
    "Area" either). *)
Definition is_area_boundary (obj : Base) : bool :=
  match obj !! "speckle_type" with
  | Some (VStr s) => is_area_type s
  | _ => false
  end.

(** The two reasons given to [mark_run_failed]: "No area boundaries found
    in the model" and "No area boundaries could be converted to surfaces". *)
Inductive run_failure : Set :=
| NoBoundariesFound
| NothingConverted.

(** The calls on the context.  [CreateVersion] carries the objects of the
    new version and the surface count of its message, [AttachInfo] the ids
    and the count, [MarkRunSuccess] the count, [AttachError] the number of
    failures and the failures its message quotes. *)
Inductive call : Type :=
| MarkRunFailed (why : run_failure)
| CreateVersion (converted_objects : list Base) (n_surfaces : nat)
| AttachInfo (object_ids : list value) (n_surfaces : nat)
| MarkRunSuccess (n_surfaces : nat)
| AttachError (n_failed : nat) (quoted : list (nat * failure_reason))
| SetContextView.

(** [[surface.id for surface in converted_surfaces if hasattr(surface, "id")]] *)
Definition surface_ids (surfaces : list Base) : list value :=
  omap (fun surface : Base => surface !! "id") surfaces.

Definition automate_function
    (function_inputs : FunctionInputs) (all_objects : list Base) : list call :=
  let boundaries := List.filter is_area_boundary all_objects in
  match boundaries with
  | [] => [MarkRunFailed NoBoundariesFound]
  | _ =>
      let st := process_boundaries (surface_tolerance function_inputs)
                  (min_area_threshold function_inputs) boundaries in
      let converted_surfaces := converted_surfaces st in
      let failed_conversions := failed_conversions st in
      let converted_objects :=
        (if preserve_original function_inputs then boundaries else [])
        ++ converted_surfaces in
      match converted_surfaces with
      | [] => [MarkRunFailed NothingConverted]
      | _ =>
          [CreateVersion converted_objects (length converted_surfaces);
           AttachInfo (surface_ids converted_surfaces) (length converted_surfaces);
           MarkRunSuccess (length converted_surfaces)]
      end
      ++ match failed_conversions with
         | [] => []
         | _ => [AttachError (length failed_conversions) (take 3 failed_conversions)]
         end
      ++ [SetContextView]
  end.

(** ** Reading a mesh back, and exact areas *)

Fixpoint chunk3 {A} (l : list A) : list (A * A * A) :=
  match l with
  | a :: b :: c :: rest => (a, b, c) :: chunk3 rest
  | _ => []
  end.

Definition as_floats (v : value) : option (list float) :=
  match v with
  | VList l => mapM (fun e => match e with VNum f => Some f | _ => None end) l
  | _ => None
  end.

Definition as_ints (v : value) : option (list Z) :=
  match v with
  | VList l => mapM (fun e => match e with VInt n => Some n | _ => None end) l
  | _ => None
  end.

Definition vertex_at (vertices : list float) (i : Z) : option Point :=
  if (i <? 0)%Z then None
  else (fun '(a, b, c) => mkPoint a b c) <$> chunk3 vertices !! Z.to_nat i.

(** The triangles of a mesh: consecutive index triples of [faces], each
    index selecting a coordinate triple of [vertices]. *)
Definition mesh_triangles (mesh : Base) : option (list (Point * Point * Point)) :=
  vertices ← mesh !! "vertices" ≫= as_floats;
  faces ← mesh !! "faces" ≫= as_ints;
  mapM (fun '(i, j, k) =>
          a ← vertex_at vertices i;
          b ← vertex_at vertices j;
          c ← vertex_at vertices k;
          Some (a, b, c))
       (chunk3 faces).

Module Exact.

Local Open Scope R_scope.

(** The real number a finite binary64 value denotes (0 for infinities
    and NaN). *)
Definition B2R (f : float) : R :=
  match Prim2SF f with
  | S754_finite s m e =>
      IZR (if s then Z.neg m else Z.pos m)
      * (if (0 <=? e)%Z then IZR (2 ^ e) else / IZR (2 ^ (- e)))
  | _ => 0
  end.

Record vec : Type := mkVec { vx : R; vy : R; vz : R }.

Definition of_point (p : Point) : vec := mkVec (B2R (x p)) (B2R (y p)) (B2R (z p)).

Definition vadd (u v : vec) : vec := mkVec (vx u + vx v) (vy u + vy v) (vz u + vz v).
Definition vminus (u v : vec) : vec := mkVec (vx u - vx v) (vy u - vy v) (vz u - vz v).
Definition vscale (k : R) (u : vec) : vec := mkVec (k * vx u) (k * vy u) (k * vz u).
Definition vcross (u v : vec) : vec :=
  mkVec (vy u * vz v - vz u * vy v) (vz u * vx v - vx u * vz v) (vx u * vy v - vy u * vx v).
Definition vnorm (u : vec) : R := sqrt (vx u * vx u + vy u * vy u + vz u * vz u).
Definition vzero : vec := mkVec 0 0 0.

Definition triangle_area (a b c : vec) : R :=
  vnorm (vcross (vminus b a) (vminus c a)) / 2.

(** Shoelace formula for a polygon in space: half the norm of the sum of
    the cross products of consecutive vertices, the last paired with the
    first. *)
Fixpoint shoelace (first : vec) (pts : list vec) : vec :=
  match pts with
  | [] => vzero
  | [p] => vcross p first
  | p :: ((q :: _) as rest) => vadd (vcross p q) (shoelace first rest)
  end.

Definition polygon_area (pts : list vec) : R :=
  match pts with
  | [] => 0
  | p :: _ => vnorm (shoelace p pts) / 2
  end.

(** The turn made at [b] when going from [a] through [b] to [c]. *)
Definition turn (a b c : vec) : vec := vcross (vminus b a) (vminus c b).

(** A planar, strictly convex quadrilateral: the turns at its four
    corners are positive multiples of one normal direction. *)
Definition convex_quad (p0 p1 p2 p3 : vec) : Prop :=
  exists (n : vec) (k0 k1 k2 k3 : R),
    n <> vzero /\ 0 < k0 /\ 0 < k1 /\ 0 < k2 /\ 0 < k3 /\
    turn p3 p0 p1 = vscale k0 n /\
    turn p0 p1 p2 = vscale k1 n /\
    turn p1 p2 p3 = vscale k2 n /\
    turn p2 p3 p0 = vscale k3 n.

Definition mesh_area (triangles : list (Point * Point * Point)) : R :=
  fold_right
    (fun '(a, b, c) acc => triangle_area (of_point a) (of_point b) (of_point c) + acc)
    0 triangles.

End Exact.

(** ** Vocabulary of the specification *)

(** [name] occurs in [s]: some text, then [name], then some text. *)
Definition occurs_in (name s : string) : Prop :=
  exists pre post : string, s = (pre ++ name ++ post)%string.

(** The six names the extractor looks for. *)
Definition curve_kind_names : list string :=
  ["Line"; "Polyline"; "Curve"; "Arc"; "Circle"; "Ellipse"]%string.

(** The declared kind of an object: the last dotted component of its
    [speckle_type] ("Objects.Geometry.Line" declares the kind "Line"). *)
Fixpoint declared_kind (s : string) : string :=
  match s with
  | EmptyString => EmptyString
  | String ch rest =>
      if contains "." rest then declared_kind rest
      else if String.eqb (String ch EmptyString) "." then rest
      else s
  end.

(** The closed set of curve kinds of the specification; the generic curve
    goes by either of its names. *)
Definition closed_set_of_kinds : list string :=
  ["Line"; "Polyline"; "GenericCurve"; "Curve"; "Arc"; "Circle"; "Ellipse"]%string.

Definition kind_in_closed_set (c : Curve) : bool :=
  existsb (String.eqb (declared_kind (speckle_type c))) closed_set_of_kinds.

(** The geometry of the planarity test, written out on coordinates: the
    numbers are binary64 and a dot product is summed from 0 in the order
    of the components. *)
Module Plane.

Definition vec3 : Set := (float * float * float)%type.

(** [q - p] *)
Definition between (p q : Point) : vec3 :=
  (PrimFloat.sub (x q) (x p), PrimFloat.sub (y q) (y p), PrimFloat.sub (z q) (z p)).

Definition cross3 (u v : vec3) : vec3 :=
  let '(u1, u2, u3) := u in
  let '(v1, v2, v3) := v in
  (PrimFloat.sub (PrimFloat.mul u2 v3) (PrimFloat.mul u3 v2),
   PrimFloat.sub (PrimFloat.mul u3 v1) (PrimFloat.mul u1 v3),
   PrimFloat.sub (PrimFloat.mul u1 v2) (PrimFloat.mul u2 v1)).

Definition dot3 (u v : vec3) : float :=
  let '(u1, u2, u3) := u in
  let '(v1, v2, v3) := v in
  PrimFloat.add
    (PrimFloat.add (PrimFloat.add 0 (PrimFloat.mul u1 v1)) (PrimFloat.mul u2 v2))
    (PrimFloat.mul u3 v3).

Definition norm3 (u : vec3) : float := PrimFloat.sqrt (dot3 u u).

(** [n = (p2 - p1) x (p3 - p1)] *)
Definition normal (p1 p2 p3 : Point) : vec3 :=
  cross3 (between p1 p2) (between p1 p3).

(** [n / |n|] *)
Definition unit (n : vec3) : vec3 :=
  let '(n1, n2, n3) := n in
  (PrimFloat.div n1 (norm3 n), PrimFloat.div n2 (norm3 n), PrimFloat.div n3 (norm3 n)).

(** [|(p - p1) . n_hat|] *)
Definition distance (p1 : Point) (n_hat : vec3) (p : Point) : float :=
  PrimFloat.abs (dot3 (between p1 p) n_hat).

End Plane.

(** The points of a loop: those of its curves, in order (the [all_points]
    of [create_surface_from_curves]). *)
Definition loop_points (loop : list Curve) : list Point :=
  flat_map get_curve_points loop.

(** Two loops compared as point sets, whatever the order of traversal. *)
Definition same_point_set (l1 l2 : list Point) : Prop :=
  forall p, p ∈ l1 <-> p ∈ l2.

Definition same_loop_set (loops1 loops2 : list (list Curve)) : Prop :=
  (forall l1, l1 ∈ loops1 ->
     exists l2, l2 ∈ loops2 /\ same_point_set (loop_points l1) (loop_points l2)) /\
  (forall l2, l2 ∈ loops2 ->
     exists l1, l1 ∈ loops1 /\ same_point_set (loop_points l1) (loop_points l2)).

(** Whether the free end of a chain returns to its start: the last sample
    point lies within the tolerance of the first. *)
Definition chain_closed (tolerance : float) (chain : list Curve) : bool :=
  match head (loop_points chain), last (loop_points chain) with
  | Some s, Some e => negb (PrimFloat.ltb tolerance (vec_length (vsub e s)))
  | _, _ => false
  end.

(** The triangles of a fan from the first point: (p0, p1, p2),
    (p0, p2, p3), ... *)
Definition fan_triangles (points : list Point) : list (Point * Point * Point) :=
  match points with
  | [] => []
  | p0 :: rest => (fun '(a, b) => (p0, a, b)) <$> zip rest (tail rest)
  end.

(** The curve-typed objects found under one attribute of a boundary. *)
Definition curves_under (boundary : Base) (attr_name : string) : list Curve :=
  match boundary !! attr_name with
  | None => []
  | Some (VList attr_value) => omap as_curve attr_value
  | Some attr_value => option_list (as_curve attr_value)
  end.

(** What one boundary adds to the results of a batch: nothing, a failure
    or a surface. *)
Inductive outcome : Type :=
| Skipped
| Failed (r : failure_reason)
| Converted (surface : Base).

Definition boundary_outcome (tol thr : float) (boundary : Base) : outcome :=
  let curves := extract_curves_from_boundary boundary in
  let metadata := extract_metadata boundary in
  match curves with
  | [] => Failed NoCurvesFound
  | _ =>
      match curves_are_coplanar tol curves with
      | Raise e => Failed (Exception e)
      | Ok false => Failed CurvesNotCoplanar
      | Ok true =>
          match below_area_threshold thr metadata with
          | Raise e => Failed (Exception e)
          | Ok true => Skipped
          | Ok false =>
              match create_surface_from_curves curves metadata with
              | Some surface => Converted surface
              | None => Skipped
              end
          end
      end
  end.

Definition record_outcome (st : state) (i : nat) (o : outcome) : state :=
  match o with
  | Skipped => st
  | Failed r => add_failure st i r
  | Converted surface => add_surface st surface
  end.

Definition surface_of (o : outcome) : option Base :=
  match o with Converted surface => Some surface | _ => None end.

Definition failure_of (io : nat * outcome) : option (nat * failure_reason) :=
  match io.2 with Failed r => Some (io.1, r) | _ => None end.

(** ** Sample data *)

Definition pt (a b c : float) : Point := mkPoint a b c.

Definition line (a b : Point) : Curve :=
  mkCurve "Objects.Geometry.Line" (Some a) (Some b) None None.

Definition polyline_of (pts : list Point) : Curve :=
  mkCurve "Objects.Geometry.Polyline" None None (Some pts) None.

(** A boundary holding the given curves under its [curves] attribute. *)
Definition boundary_of (curves : list Curve) : Base :=
  {[ "curves"%string := VList (VBase <$> curves) ]}.

Definition unit_square : list Point := [pt 0 0 0; pt 1 0 0; pt 1 1 0; pt 0 1 0].

(** The unit square with its last corner lifted out of the plane. *)
Definition bent_polyline : Curve :=
  polyline_of [pt 0 0 0; pt 1 0 0; pt 1 1 0; pt 0 1 1].

Definition triangle_loop : list Curve :=
  [line (pt 0 0 0) (pt 1 0 0); line (pt 1 0 0) (pt 0 1 0); line (pt 0 1 0) (pt 0 0 0)].

Definition triangle_loop_shuffled : list Curve :=
  [line (pt 0 1 0) (pt 0 0 0); line (pt 0 0 0) (pt 1 0 0); line (pt 1 0 0) (pt 0 1 0)].

(** Three sides of the unit square; the side back to the origin is missing. *)
Definition open_chain : list Curve :=
  [line (pt 0 0 0) (pt 1 0 0); line (pt 1 0 0) (pt 1 1 0); line (pt 1 1 0) (pt 0 1 0)].

(** Three coincident points, and a segment of length zero. *)
Definition collapsed_polyline : Curve :=
  polyline_of [pt 0 0 0; pt 0 0 0; pt 0 0 0].

Definition collapsed_line : Curve := line (pt 0 0 0) (pt 0 0 0).

(** A boundary that declares area 0.05 and holds no curve, and one that
    declares the same area around a triangle. *)
Definition small_area_without_curves : Base :=
  {[ "area"%string := VNum 0.05 ]}.

Definition small_triangle_boundary : Base :=
  <[ "area"%string := VNum 0.05 ]> (boundary_of triangle_loop).

(** An area object of area 0.05 around a triangle, as [flatten_base]
    would hand it over. *)
Definition small_area_object : Base :=
  <[ "speckle_type"%string := VStr "Objects.BuiltElements.Area" ]> small_triangle_boundary.

(** Two objects that are no curves of the six kinds, but whose type
    names hold one of the six names. *)
Definition grid_line : Curve :=
  mkCurve "Objects.BuiltElements.GridLine" None None None None.

Definition archicad_wall : Curve :=
  mkCurve "Objects.BuiltElements.Archicad.ArchicadWall" None None None None.

(** Four points of which the first three lie on a line. *)
Definition collinear_start : list Point := [pt 0 0 0; pt 1 0 0; pt 2 0 0; pt 0 1 0].

(** The boundary of the repository's [test_metadata_extraction]. *)
Definition test_boundary : Base :=
  <[ "level"%string := VStr "Level 1" ]>
    (<[ "number"%string := VStr "001" ]>
       (<[ "name"%string := VStr "Test Area" ]>
          (<[ "area"%string := VNum 100.5 ]> ∅))).

(** * Properties *)

(** ** Planarity analyzer *)

(** The two cases of the repository's [test_points_are_coplanar]. *)
Example test_points_are_coplanar_square :
  points_are_coplanar 0.01 [pt 0 0 0; pt 1 0 0; pt 1 1 0; pt 0 1 0] = Ok true.
Proof. vm_compute. reflexivity. Qed.

Example test_points_are_coplanar_lifted :
  points_are_coplanar 0.01 [pt 0 0 0; pt 1 0 0; pt 1 1 0; pt 0 1 1] = Ok false.
Proof. vm_compute. reflexivity. Qed.

Lemma normalize_map (normal : list float) (len : float) :
  PrimFloat.eqb len 0 = false ->
  normalize normal len = Ok (map (fun c => PrimFloat.div c len) normal).
Proof.
  intros Hlen. induction normal as [|c normal IH]; simpl; [reflexivity|].
  unfold Py.truediv. rewrite Hlen. simpl. rewrite IH. reflexivity.
Qed.

Lemma normalize_zero (c : float) (normal : list float) (len : float) :
  PrimFloat.eqb len 0 = true ->
  normalize (c :: normal) len = Raise ZeroDivisionError.
Proof. intros Hlen. simpl. unfold Py.truediv. rewrite Hlen. reflexivity. Qed.

Lemma check_rest_existsb (tolerance : float) (p1 : Point) (normal : list float)
    (rest : list Point) :
  check_rest tolerance p1 normal rest
  = negb (existsb (fun q => PrimFloat.ltb tolerance (plane_distance p1 normal q)) rest).
Proof.
  induction rest as [|q rest IH]; simpl; [reflexivity|].
  destruct (PrimFloat.ltb tolerance (plane_distance p1 normal q)); simpl; auto.
Qed.

(** What [points_are_coplanar] returns on four points or more, case by
    case, the failing normalisation included. *)
Lemma points_are_coplanar_cases (tolerance : float) (p1 p2 p3 p : Point)
    (rest : list Point) :
  let n := cross (vsub p2 p1) (vsub p3 p1) in
  let len := vec_length n in
  points_are_coplanar tolerance (p1 :: p2 :: p3 :: p :: rest)
  = if PrimFloat.ltb len tolerance then Ok true
    else if PrimFloat.eqb len 0 then Raise ZeroDivisionError
    else Ok (negb (existsb
                     (fun q => PrimFloat.ltb tolerance
                                 (plane_distance p1 (map (fun c => PrimFloat.div c len) n) q))
                     (p :: rest))).
Proof.
  intros n len. unfold points_are_coplanar.
  change (length (p1 :: p2 :: p3 :: p :: rest) <? 4)%nat with false.
  cbv zeta. fold n. fold len.
  destruct (PrimFloat.ltb len tolerance); [reflexivity|].
  destruct (PrimFloat.eqb len 0) eqn:Hz.
  - unfold n, cross. rewrite normalize_zero by exact Hz. reflexivity.
  - rewrite normalize_map by exact Hz.
    unfold mbind, result_bind, Py.bind.
    rewrite check_rest_existsb. reflexivity.
Qed.

(** C8. Every point list with fewer than four points is reported planar. *)
Theorem points_are_coplanar_few (tolerance : float) (points : list Point) :
  length points < 4 -> points_are_coplanar tolerance points = Ok true.
Proof.
  intros Hlen. unfold points_are_coplanar.
  apply Nat.ltb_lt in Hlen. rewrite Hlen. reflexivity.
Qed.

Lemma points_are_coplanar_few_witness :
  length [pt 0 0 0; pt 1 0 0; pt 0 1 5] < 4 /\
  points_are_coplanar 0.01 [pt 0 0 0; pt 1 0 0; pt 0 1 5] = Ok true.
Proof.
  split; [simpl; lia|].
  apply (points_are_coplanar_few 0.01 [pt 0 0 0; pt 1 0 0; pt 0 1 5]). simpl; lia.
Defined.

(** With a positive tolerance a zero [|n|] is below the tolerance, so the
    normalisation never divides by zero. *)
Lemma positive_tolerance_no_zero_division (tolerance len : float) :
  PrimFloat.ltb 0 tolerance = true ->
  PrimFloat.ltb len tolerance = false ->
  PrimFloat.eqb len 0 = false.
Proof.
  rewrite !FloatAxioms.ltb_spec, FloatAxioms.eqb_spec. unfold SFltb, SFeqb.
  change (Prim2SF 0) with (S754_zero false).
  destruct (Prim2SF len) as [s| s| |s m e], (Prim2SF tolerance) as [s'| s'| |s' m' e'];
    simpl; try congruence; destruct s, s'; simpl; congruence.
Qed.

(** The test in the terms of [Plane]: the vectors, the length and the
    distance that the code computes on lists are those written out on
    coordinates. *)
Lemma points_are_coplanar_plane (tolerance : float) (p1 p2 p3 p : Point)
    (rest : list Point) :
  let n := Plane.normal p1 p2 p3 in
  points_are_coplanar tolerance (p1 :: p2 :: p3 :: p :: rest)
  = if PrimFloat.ltb (Plane.norm3 n) tolerance then Ok true
    else if PrimFloat.eqb (Plane.norm3 n) 0 then Raise ZeroDivisionError
    else Ok (negb (existsb
                     (fun q => PrimFloat.ltb tolerance
                                 (Plane.distance p1 (Plane.unit n) q))
                     (p :: rest))).
Proof. intros n. rewrite points_are_coplanar_cases. reflexivity. Qed.




(** With tolerance 0 and three collinear leading points the normalisation
    raises. *)
Example points_are_coplanar_zero_tolerance :
  points_are_coplanar 0 [pt 0 0 0; pt 1 0 0; pt 2 0 0; pt 0 1 0]
  = Raise ZeroDivisionError.
Proof. vm_compute. reflexivity. Qed.

(** ** Coplanarity gate *)

(** C10. A curve list with fewer than two curves passes the gate whatever
    its points are: a single polyline whose own points are not coplanar
    passes. *)
Theorem curves_are_coplanar_single (tolerance : float) :
  (forall curves : list Curve,
     length curves < 2 -> curves_are_coplanar tolerance curves = Ok true) /\
  points_are_coplanar 0.01 (get_curve_points bent_polyline) = Ok false /\
  curves_are_coplanar 0.01 [bent_polyline] = Ok true.
Proof.
  split; [|split].
  - intros curves Hlen. unfold curves_are_coplanar.
    apply Nat.ltb_lt in Hlen. rewrite Hlen. reflexivity.
  - vm_compute. reflexivity.
  - reflexivity.
Qed.

(** ** Curve extractor *)

(** The two cases of the repository's [test_curve_detection]. *)
Example test_curve_detection_line :
  is_curve (VBase (mkCurve "Objects.Geometry.Line" None None None None)) = true.
Proof. reflexivity. Qed.

Example test_curve_detection_point :
  is_curve (VBase (mkCurve "Objects.Geometry.Point" None None None None)) = false.
Proof. reflexivity. Qed.

Lemma prefix_occurs (a s : string) :
  String.prefix a s = true <-> exists post : string, s = (a ++ post)%string.
Proof.
  revert s. induction a as [|ch a IH]; intros s.
  - split; [intros _; exists s; reflexivity|intros _; destruct s; reflexivity].
  - destruct s as [|ch' s]; simpl.
    + split; [discriminate|intros [post H]; discriminate H].
    + destruct (Ascii.ascii_dec ch ch') as [->|Hne].
      * rewrite IH. split; intros [post H]; exists post; [rewrite H; reflexivity|].
        injection H as H. exact H.
      * split; [discriminate|]. intros [post H]. injection H as H _. congruence.
Qed.

Lemma contains_step (name hay : string) :
  contains name hay
  = String.prefix name hay
    || match hay with
       | EmptyString => false
       | String _ hay' => contains name hay'
       end.
Proof.
  destruct hay as [|ch hay]; simpl.
  - destruct (String.prefix name ""); reflexivity.
  - destruct (String.prefix name (String ch hay)); reflexivity.
Qed.

(** The substring test of the code finds exactly the occurrences. *)
Lemma contains_occurs (name s : string) :
  contains name s = true <-> occurs_in name s.
Proof.
  unfold occurs_in. induction s as [|ch s IH]; rewrite contains_step, orb_true_iff.
  - split.
    + intros [H|H]; [|discriminate H].
      apply prefix_occurs in H as [post H]. exists ""%string, post. exact H.
    + intros (pre & post & H). left. apply prefix_occurs.
      destruct pre; [exists post; exact H|discriminate H].
  - split.
    + intros [H|H].
      * apply prefix_occurs in H as [post H]. exists ""%string, post. exact H.
      * apply IH in H as (pre & post & H). exists (String ch pre), post.
        rewrite H. reflexivity.
    + intros (pre & post & H). destruct pre as [|ch' pre].
      * left. apply prefix_occurs. exists post. exact H.
      * right. apply IH. injection H as _ H. exists pre, post. exact H.
Qed.

Lemma is_curve_occurs (c : Curve) :
  is_curve (VBase c) = true <->
  exists name, name ∈ curve_kind_names /\ occurs_in name (speckle_type c).
Proof.
  unfold is_curve. rewrite existsb_exists. split.
  - intros (name & Hin & Hc). exists name. split.
    + apply list_elem_of_In. exact Hin.
    + apply contains_occurs, Hc.
  - intros (name & Hin & Hc). exists name. split.
    + apply list_elem_of_In. exact Hin.
    + apply contains_occurs, Hc.
Qed.

Lemma as_curve_Some (v : value) (c : Curve) :
  as_curve v = Some c -> v = VBase c /\ is_curve (VBase c) = true.
Proof.
  destruct v as [| | | | | |c0]; try discriminate.
  unfold as_curve. destruct (is_curve (VBase c0)) eqn:E; [|discriminate].
  intros [= ->]. auto.
Qed.

Lemma extract_curves_are_curves (boundary : Base) (c : Curve) :
  c ∈ extract_curves_from_boundary boundary -> is_curve (VBase c) = true.
Proof.
  unfold extract_curves_from_boundary.
  assert (Hacc : forall attrs acc,
             (forall c', c' ∈ acc -> is_curve (VBase c') = true) ->
             forall c',
               c' ∈ foldl
                 (fun curves attr_name =>
                    match boundary !! attr_name with
                    | None => curves
                    | Some (VList attr_value) => curves ++ omap as_curve attr_value
                    | Some attr_value =>
                        match as_curve attr_value with
                        | Some c => curves ++ [c]
                        | None => curves
                        end
                    end) acc attrs ->
               is_curve (VBase c') = true).
  { induction attrs as [|a attrs IH]; intros acc Hacc c'; simpl; [apply Hacc|].
    apply IH. intros c''.
    destruct (boundary !! a) as [v|]; [|apply Hacc].
    assert (Hone : forall w,
               c'' ∈ match as_curve w with Some c0 => acc ++ [c0] | None => acc end ->
               is_curve (VBase c'') = true).
    { intros w. destruct (as_curve w) as [c0|] eqn:E; [|apply Hacc].
      rewrite elem_of_app, list_elem_of_singleton. intros [H| ->]; [auto|].
      apply as_curve_Some in E. tauto. }
    destruct v; try apply Hone.
    rewrite elem_of_app, list_elem_of_omap. intros [H|(w & _ & E)]; [auto|].
    apply as_curve_Some in E. tauto. }
  apply Hacc. intros c' H. inversion H.
Qed.

(** C6, counterexample. A grid line and an Archicad wall are of no kind
    in the closed set, yet each is extracted: "GridLine" holds "Line" and
    "ArchicadWall" holds "Arc". *)
Lemma kinds_outside_the_set_extracted :
  declared_kind (speckle_type grid_line) = "GridLine"%string /\
  kind_in_closed_set grid_line = false /\
  declared_kind (speckle_type archicad_wall) = "ArchicadWall"%string /\
  kind_in_closed_set archicad_wall = false /\
  extract_curves_from_boundary (boundary_of [grid_line; archicad_wall])
  = [grid_line; archicad_wall].
Proof. repeat split; vm_compute; reflexivity. Qed.

(** The names are looked for as they are spelt: a polycurve, with its
    small c, holds none of them, and a line of the closed set is found. *)
Example is_curve_case_sensitive :
  is_curve (VBase (mkCurve "Objects.Geometry.Polycurve" None None None None)) = false /\
  kind_in_closed_set (line (pt 0 0 0) (pt 1 0 0)) = true /\
  is_curve (VBase (line (pt 0 0 0) (pt 1 0 0))) = true.
Proof. repeat split; vm_compute; reflexivity. Qed.

(** C6, as the code has it. The extractor returns an object only if one
    of the names Line, Polyline, Curve, Arc, Circle, Ellipse occurs, so
    spelt, somewhere in its [speckle_type]; an object in whose type none
    of them occurs is never in the returned list (the extractor is a
    total function: no error is raised). *)
Theorem extract_curves_only_curve_kinds (boundary : Base) :
  (forall c, c ∈ extract_curves_from_boundary boundary ->
     exists name,
       name ∈ ["Line"; "Polyline"; "Curve"; "Arc"; "Circle"; "Ellipse"]%string /\
       exists pre post : string, speckle_type c = (pre ++ name ++ post)%string) /\
  (forall c,
     (forall name pre post,
        name ∈ ["Line"; "Polyline"; "Curve"; "Arc"; "Circle"; "Ellipse"]%string ->
        speckle_type c <> (pre ++ name ++ post)%string) ->
     c ∉ extract_curves_from_boundary boundary).
Proof.
  split.
  - intros c Hc. apply extract_curves_are_curves, is_curve_occurs in Hc.
    exact Hc.
  - intros c Hnone Hc.
    apply extract_curves_are_curves, is_curve_occurs in Hc as (name & Hin & pre & post & H).
    exact (Hnone name pre post Hin H).
Qed.

(** ** Loop grouper *)

Lemma loop_points_perm (curves curves' : list Curve) :
  curves ≡ₚ curves' -> same_point_set (loop_points curves) (loop_points curves').
Proof.
  intros Hp p. unfold loop_points.
  assert (Hf : flat_map get_curve_points curves ≡ₚ flat_map get_curve_points curves')
    by (apply Permutation_flat_map, Hp).
  rewrite Hf. reflexivity.
Qed.

(** C7. Grouping a permutation of a curve list gives the same set of loops
    as grouping the list itself, loops being compared as point sets. *)
Theorem group_curves_order_independent (curves curves' : list Curve) :
  curves ≡ₚ curves' ->
  same_loop_set (group_curves_into_loops curves) (group_curves_into_loops curves').
Proof.
  intros Hp. pose proof (loop_points_perm _ _ Hp) as Hs.
  destruct curves as [|c cs], curves' as [|c' cs'].
  - split; intros l H; inversion H.
  - apply Permutation_nil_cons in Hp. contradiction.
  - symmetry in Hp. apply Permutation_nil_cons in Hp. contradiction.
  - unfold group_curves_into_loops. split; intros l Hl;
      apply list_elem_of_singleton in Hl; subst l;
      eexists; (split; [apply list_elem_of_singleton; reflexivity | exact Hs]).
Qed.

Lemma group_curves_order_independent_witness :
  same_loop_set (group_curves_into_loops triangle_loop)
                (group_curves_into_loops triangle_loop_shuffled).
Proof.
  apply (group_curves_order_independent triangle_loop triangle_loop_shuffled).
  symmetry.
  exact (Permutation_cons_append
           [line (pt 0 0 0) (pt 1 0 0); line (pt 1 0 0) (pt 0 1 0)]
           (line (pt 0 1 0) (pt 0 0 0))).
Defined.

(** ** Metadata propagator *)

Example test_metadata_extraction :
  extract_metadata test_boundary !! "area"%string = Some (VNum 100.5) /\
  extract_metadata test_boundary !! "name"%string = Some (VStr "Test Area") /\
  extract_metadata test_boundary !! "number"%string = Some (VStr "001") /\
  extract_metadata test_boundary !! "level"%string = Some (VStr "Level 1").
Proof. repeat split; vm_compute; reflexivity. Qed.

Lemma transfer_metadata_union (metadata : gmap string value) (mesh : Base) :
  transfer_metadata metadata mesh = metadata ∪ mesh.
Proof.
  unfold transfer_metadata.
  apply (map_fold_weak_ind (fun r m => r = m ∪ mesh)).
  - symmetry. apply (left_id_L ∅ (∪)).
  - intros i v m r _ ->. apply insert_union_l.
Qed.

Lemma mark_converted_lookup (mesh : Base) (k : string) :
  mark_converted mesh !! k =
  if decide (k = "converted_from"%string) then Some (VStr "AreaBoundary")
  else if decide (k = "speckle_type"%string) then Some (VStr "Objects.Geometry.Mesh")
  else mesh !! k.
Proof.
  unfold mark_converted. rewrite !lookup_insert.
  repeat case_decide; congruence.
Qed.

(** C9. Propagating the extracted metadata onto a mesh a second time
    leaves the mesh's mapping as the first propagation made it, with or
    without the two provenance attributes that surface creation sets
    afterwards. *)
Theorem metadata_propagation_idempotent (boundary mesh : Base) :
  let metadata := extract_metadata boundary in
  transfer_metadata metadata (transfer_metadata metadata mesh)
  = transfer_metadata metadata mesh /\
  mark_converted (transfer_metadata metadata (mark_converted (transfer_metadata metadata mesh)))
  = mark_converted (transfer_metadata metadata mesh).
Proof.
  intros metadata. rewrite !transfer_metadata_union. split.
  - rewrite (assoc_L (∪)), (idemp_L (∪)). reflexivity.
  - apply map_eq. intros k.
    rewrite !mark_converted_lookup. repeat case_decide; try reflexivity.
    rewrite !lookup_union, mark_converted_lookup.
    repeat case_decide; try congruence.
    rewrite lookup_union. destruct (metadata !! k), (mesh !! k); reflexivity.
Qed.

(** ** Tessellator *)

Module ExactFacts.

Import Exact.
Local Open Scope R_scope.

Lemma vnorm_scale (k : R) (n : vec) : 0 <= k -> vnorm (vscale k n) = k * vnorm n.
Proof.
  intros Hk. unfold vnorm, vscale. simpl.
  replace (k * vx n * (k * vx n) + k * vy n * (k * vy n) + k * vz n * (k * vz n))
    with (k * k * (vx n * vx n + vy n * vy n + vz n * vz n)) by ring.
  rewrite sqrt_mult_alt by nra.
  rewrite sqrt_square by exact Hk. reflexivity.
Qed.

Lemma vscale_add (k l : R) (n : vec) :
  vadd (vscale k n) (vscale l n) = vscale (k + l) n.
Proof. unfold vadd, vscale. simpl. f_equal; ring. Qed.

Lemma turn_first (p0 p1 p2 : vec) :
  turn p0 p1 p2 = vcross (vminus p1 p0) (vminus p2 p0).
Proof. unfold turn, vcross, vminus. simpl. f_equal; ring. Qed.

Lemma turn_last (p0 p2 p3 : vec) :
  turn p2 p3 p0 = vcross (vminus p2 p0) (vminus p3 p0).
Proof. unfold turn, vcross, vminus. simpl. f_equal; ring. Qed.

(** The shoelace sum of a quadrilateral splits along the diagonal from
    its first vertex. *)
Lemma shoelace_quad (p0 p1 p2 p3 : vec) :
  shoelace p0 [p0; p1; p2; p3]
  = vadd (vcross (vminus p1 p0) (vminus p2 p0)) (vcross (vminus p2 p0) (vminus p3 p0)).
Proof. unfold shoelace, vadd, vcross, vminus. simpl. f_equal; ring. Qed.

Lemma fan_area_convex_quad (p0 p1 p2 p3 : vec) :
  convex_quad p0 p1 p2 p3 ->
  triangle_area p0 p1 p2 + triangle_area p0 p2 p3 = polygon_area [p0; p1; p2; p3].
Proof.
  intros (n & k0 & k1 & k2 & k3 & _ & _ & Hk1 & _ & Hk3 & _ & H1 & _ & H3).
  unfold triangle_area, polygon_area. rewrite shoelace_quad.
  rewrite <- turn_first, <- turn_last, H1, H3, vscale_add.
  rewrite !vnorm_scale by lra. lra.
Qed.

Lemma B2R_zero : B2R 0 = 0.
Proof. reflexivity. Qed.

Lemma B2R_one : B2R 1 = 1.
Proof.
  change (B2R 1) with (IZR 4503599627370496 * / IZR 4503599627370496).
  field.
Qed.

End ExactFacts.

Lemma mesh_triangles_quad (p0 p1 p2 p3 : Point) :
  mesh_triangles (create_mesh_from_points [p0; p1; p2; p3])
  = Some [(p0, p1, p2); (p0, p2, p3)].
Proof. destruct p0, p1, p2, p3. reflexivity. Qed.

Lemma mesh_triangles_surface (metadata : gmap string value) (mesh : Base) :
  metadata !! "vertices"%string = None -> metadata !! "faces"%string = None ->
  mesh_triangles (mark_converted (transfer_metadata metadata mesh)) = mesh_triangles mesh.
Proof.
  intros Hv Hf. unfold mesh_triangles.
  rewrite !mark_converted_lookup, transfer_metadata_union.
  repeat case_decide; try discriminate.
  rewrite !lookup_union, Hv, Hf, !(left_id_L None _). reflexivity.
Qed.

(** C3. The mesh made from the four vertices of a convex quadrilateral has
    exactly two triangular faces, (p0,p1,p2) and (p0,p2,p3), whose areas
    sum to the quadrilateral's area (exactly, hence within any
    tolerance); the surface created from the quadrilateral given as one
    polyline carries the same two triangles. *)
Theorem quad_tessellation (p0 p1 p2 p3 : Point) :
  Exact.convex_quad (Exact.of_point p0) (Exact.of_point p1)
                    (Exact.of_point p2) (Exact.of_point p3) ->
  create_mesh_from_points [p0; p1; p2; p3] !! "faces"%string
  = Some (VList [VInt 0; VInt 1; VInt 2; VInt 0; VInt 2; VInt 3]) /\
  exists triangles,
    mesh_triangles (create_mesh_from_points [p0; p1; p2; p3]) = Some triangles /\
    length triangles = 2 /\
    Exact.mesh_area triangles
    = Exact.polygon_area (map Exact.of_point [p0; p1; p2; p3]) /\
    forall metadata : gmap string value,
      metadata !! "vertices"%string = None -> metadata !! "faces"%string = None ->
      exists surface,
        create_surface_from_curves [polyline_of [p0; p1; p2; p3]] metadata = Some surface /\
        mesh_triangles surface = Some triangles.
Proof.
  intros Hconvex. split; [reflexivity|].
  exists [(p0, p1, p2); (p0, p2, p3)].
  split; [apply mesh_triangles_quad|]. split; [reflexivity|]. split.
  - unfold Exact.mesh_area. simpl fold_right. simpl map.
    rewrite <- (ExactFacts.fan_area_convex_quad _ _ _ _ Hconvex). lra.
  - intros metadata Hv Hf. eexists. split; [reflexivity|].
    rewrite mesh_triangles_surface by assumption. apply mesh_triangles_quad.
Qed.

Lemma unit_square_convex :
  Exact.convex_quad (Exact.of_point (pt 0 0 0)) (Exact.of_point (pt 1 0 0))
                    (Exact.of_point (pt 1 1 0)) (Exact.of_point (pt 0 1 0)).
Proof.
  exists (Exact.mkVec 0 0 1), 1%R, 1%R, 1%R, 1%R.
  unfold Exact.of_point, pt. cbn [x y z].
  rewrite ExactFacts.B2R_one, ExactFacts.B2R_zero.
  repeat split; try lra.
  - intros H. injection H as H. lra.
  - unfold Exact.turn, Exact.vcross, Exact.vminus, Exact.vscale. simpl. f_equal; ring.
  - unfold Exact.turn, Exact.vcross, Exact.vminus, Exact.vscale. simpl. f_equal; ring.
  - unfold Exact.turn, Exact.vcross, Exact.vminus, Exact.vscale. simpl. f_equal; ring.
  - unfold Exact.turn, Exact.vcross, Exact.vminus, Exact.vscale. simpl. f_equal; ring.
Qed.

Lemma quad_tessellation_witness :
  create_mesh_from_points unit_square !! "faces"%string
  = Some (VList [VInt 0; VInt 1; VInt 2; VInt 0; VInt 2; VInt 3]) /\
  exists triangles,
    mesh_triangles (create_mesh_from_points unit_square) = Some triangles /\
    length triangles = 2 /\
    Exact.mesh_area triangles = Exact.polygon_area (map Exact.of_point unit_square) /\
    forall metadata : gmap string value,
      metadata !! "vertices"%string = None -> metadata !! "faces"%string = None ->
      exists surface,
        create_surface_from_curves [polyline_of unit_square] metadata = Some surface /\
        mesh_triangles surface = Some triangles.
Proof.
  exact (quad_tessellation (pt 0 0 0) (pt 1 0 0) (pt 1 1 0) (pt 0 1 0) unit_square_convex).
Defined.

(** A quadrilateral given as four line segments contributes each corner
    twice: eight points, six faces. *)
Example square_of_lines_faces :
  mesh_faces (loop_points [line (pt 0 0 0) (pt 1 0 0); line (pt 1 0 0) (pt 1 1 0);
                           line (pt 1 1 0) (pt 0 1 0); line (pt 0 1 0) (pt 0 0 0)])
  = [0; 1; 2; 0; 2; 3; 0; 3; 4; 0; 4; 5; 0; 5; 6; 0; 6; 7]%Z.
Proof. reflexivity. Qed.

(** ** Batch loop: grouping, degenerate loops and the area filter *)

(** C2, counterexample. The boundary made of an unclosed chain: the chain
    is returned as a loop, a mesh is made from it, and nothing is
    reported. *)
Lemma open_chain_grouped_and_meshed :
  chain_closed 0.01 open_chain = false /\
  extract_curves_from_boundary (boundary_of open_chain) = open_chain /\
  group_curves_into_loops open_chain = [open_chain] /\
  failed_conversions (process_boundaries 0.01 0.1 [boundary_of open_chain]) = [] /\
  length (converted_surfaces (process_boundaries 0.01 0.1 [boundary_of open_chain])) = 1.
Proof. repeat split; vm_compute; reflexivity. Qed.

Lemma process_boundary_converts (tol thr : float) (st : state) (i : nat) (boundary : Base) :
  extract_curves_from_boundary boundary <> [] ->
  curves_are_coplanar tol (extract_curves_from_boundary boundary) = Ok true ->
  below_area_threshold thr (extract_metadata boundary) = Ok false ->
  process_boundary tol thr st i boundary
  = mkState
      (converted_surfaces st ++
       option_list (create_surface_from_curves
                         (extract_curves_from_boundary boundary) (extract_metadata boundary)))
      (failed_conversions st).
Proof.
  intros Hne Hco Harea. unfold process_boundary. rewrite Hco, Harea.
  destruct (extract_curves_from_boundary boundary) as [|c cs] eqn:E; [contradiction|].
  unfold group_curves_into_loops. simpl foldl.
  destruct (create_surface_from_curves (c :: cs) (extract_metadata boundary)); simpl.
  - reflexivity.
  - rewrite app_nil_r. destruct st; reflexivity.
Qed.

(** C2, as the code has it. Grouping does no connectivity analysis: a
    non-empty curve list comes back as one loop holding all its curves in
    input order, whether or not they close; no curve is left out of the
    loops. *)
Theorem group_curves_single_loop (curves : list Curve) :
  curves <> [] ->
  group_curves_into_loops curves = [curves] /\
  concat (group_curves_into_loops curves) = curves /\
  (forall c loop,
     c ∈ curves -> loop ∈ group_curves_into_loops curves -> c ∈ loop).
Proof.
  intros Hne.
  assert (H : group_curves_into_loops curves = [curves])
    by (destruct curves; [contradiction|reflexivity]).
  rewrite H. split; [reflexivity|]. split.
  - simpl. apply app_nil_r.
  - intros c loop Hc Hloop. apply list_elem_of_singleton in Hloop. subst loop. exact Hc.
Qed.

Lemma group_curves_single_loop_witness :
  group_curves_into_loops open_chain = [open_chain] /\
  concat (group_curves_into_loops open_chain) = open_chain /\
  (forall c loop,
     c ∈ open_chain -> loop ∈ group_curves_into_loops open_chain -> c ∈ loop).
Proof. apply (group_curves_single_loop open_chain). discriminate. Defined.

Lemma short_loop_passes_gate (tol : float) (curves : list Curve) :
  length (loop_points curves) < 3 -> curves_are_coplanar tol curves = Ok true.
Proof.
  intros Hlen. unfold curves_are_coplanar.
  destruct (length curves <? 2)%nat; [reflexivity|].
  apply Nat.ltb_lt in Hlen. unfold loop_points in Hlen. rewrite Hlen. reflexivity.
Qed.

(** C4, counterexample. A loop whose three points all coincide (a single
    distinct vertex) gets a mesh with one face; a loop of two coincident
    points gets none, and the batch records no failure for it. *)
Lemma degenerate_polygon_meshed_or_unreported :
  (forall p, p ∈ loop_points [collapsed_polyline] -> p = pt 0 0 0) /\
  mesh_triangles <$> create_surface_from_curves [collapsed_polyline] ∅
  = Some (Some [(pt 0 0 0, pt 0 0 0, pt 0 0 0)]) /\
  length (converted_surfaces
            (process_boundaries 0.01 0.1 [boundary_of [collapsed_polyline]])) = 1 /\
  create_surface_from_curves [collapsed_line] ∅ = None /\
  process_boundaries 0.01 0.1 [boundary_of [collapsed_line]] = mkState [] [].
Proof.
  split.
  - intros p Hp. simpl in Hp.
    repeat (apply elem_of_cons in Hp as [->|Hp]; [reflexivity|]). inversion Hp.
  - repeat split; vm_compute; reflexivity.
Qed.

(** A boundary whose curves contribute fewer than three points leaves the
    state as it was. *)
Lemma short_loop_skipped (tol thr : float) (st : state) (i : nat)
    (boundary : Base) (skip : bool) :
  extract_curves_from_boundary boundary <> [] ->
  length (loop_points (extract_curves_from_boundary boundary)) < 3 ->
  below_area_threshold thr (extract_metadata boundary) = Ok skip ->
  process_boundary tol thr st i boundary = st.
Proof.
  intros Hne Hlen Harea.
  pose proof (short_loop_passes_gate tol _ Hlen) as Hgate.
  destruct skip.
  - unfold process_boundary. rewrite Hgate, Harea.
    destruct (extract_curves_from_boundary boundary); [contradiction|reflexivity].
  - rewrite (process_boundary_converts tol thr st i boundary Hne Hgate Harea).
    unfold create_surface_from_curves. apply Nat.ltb_lt in Hlen.
    unfold loop_points in Hlen. rewrite Hlen. simpl. rewrite app_nil_r.
    destruct st; reflexivity.
Qed.

(** C4, as the code has it. A loop whose curves contribute fewer than
    three points in all (coincident points are not merged) yields no mesh;
    this is not fatal: the boundary adds no surface and the batch goes on
    with the boundaries that follow. *)
Theorem short_loop_no_mesh (tol thr : float) (st : state) (i : nat)
    (boundary : Base) (rest : list Base) (skip : bool) :
  let curves := extract_curves_from_boundary boundary in
  curves <> [] ->
  length (loop_points curves) < 3 ->
  below_area_threshold thr (extract_metadata boundary) = Ok skip ->
  create_surface_from_curves curves (extract_metadata boundary) = None /\
  converted_surfaces (process_boundary tol thr st i boundary) = converted_surfaces st /\
  converted_surfaces (process_from tol thr st i (boundary :: rest))
  = converted_surfaces (process_from tol thr st (S i) rest).
Proof.
  intros curves Hne Hlen Harea.
  pose proof (short_loop_skipped tol thr st i boundary skip Hne Hlen Harea) as Hskip.
  split; [|split].
  - unfold create_surface_from_curves. apply Nat.ltb_lt in Hlen.
    unfold loop_points in Hlen. rewrite Hlen. reflexivity.
  - rewrite Hskip. reflexivity.
  - simpl process_from. rewrite Hskip. reflexivity.
Qed.

Lemma short_loop_no_mesh_witness :
  create_surface_from_curves [collapsed_line]
    (extract_metadata (boundary_of [collapsed_line])) = None /\
  converted_surfaces
    (process_boundary 0.01 0.1 (mkState [] []) 0 (boundary_of [collapsed_line])) = [] /\
  converted_surfaces
    (process_from 0.01 0.1 (mkState [] []) 0
       [boundary_of [collapsed_line]; boundary_of triangle_loop])
  = converted_surfaces
      (process_from 0.01 0.1 (mkState [] []) 1 [boundary_of triangle_loop]).
Proof.
  apply (short_loop_no_mesh 0.01 0.1 (mkState [] []) 0
           (boundary_of [collapsed_line]) [boundary_of triangle_loop] false).
  - vm_compute. discriminate.
  - vm_compute. lia.
  - vm_compute. reflexivity.
Defined.

(** C5, counterexample. A boundary that declares area 0.05 under the
    threshold 0.1 but holds no curve is reported: the curve check comes
    before the area filter. *)
Lemma small_area_without_curves_reported :
  extract_metadata small_area_without_curves !! "area"%string = Some (VNum 0.05) /\
  below_area_threshold 0.1 (extract_metadata small_area_without_curves) = Ok true /\
  process_boundaries 0.01 0.1 [small_area_without_curves]
  = mkState [] [(0, NoCurvesFound)].
Proof. repeat split; vm_compute; reflexivity. Qed.

(** C5, as the code has it. A boundary that yields at least one curve and
    passes the coplanarity gate, and whose extracted metadata holds an
    area that is a number below the threshold, is skipped: the state
    (surfaces and failures) is left as it was. *)
Theorem below_threshold_silent_skip (tol thr : float) (st : state) (i : nat)
    (boundary : Base) (area : value) :
  extract_curves_from_boundary boundary <> [] ->
  curves_are_coplanar tol (extract_curves_from_boundary boundary) = Ok true ->
  extract_metadata boundary !! "area"%string = Some area ->
  py_lt area thr = Ok true ->
  process_boundary tol thr st i boundary = st.
Proof.
  intros Hne Hco Harea Hlt. unfold process_boundary.
  rewrite Hco. unfold below_area_threshold. rewrite Harea, Hlt.
  destruct (extract_curves_from_boundary boundary); [contradiction|reflexivity].
Qed.

Lemma below_threshold_silent_skip_witness :
  process_boundary 0.01 0.1 (mkState [] []) 0 small_triangle_boundary = mkState [] [].
Proof.
  apply (below_threshold_silent_skip 0.01 0.1 (mkState [] []) 0
           small_triangle_boundary (VNum 0.05)).
  - vm_compute. discriminate.
  - vm_compute. reflexivity.
  - vm_compute. reflexivity.
  - vm_compute. reflexivity.
Defined.

(** The area the filter reads is the boundary's own [area] attribute,
    unless a [parameters] dict supplies an [area] entry of its own. *)
Lemma preserved_lookup (boundary : Base) (attrs : list string)
    (acc : gmap string value) (k : string) :
  foldl (fun metadata attr =>
           match boundary !! attr with
           | Some v => <[attr := v]> metadata
           | None => metadata
           end) acc attrs !! k
  = match (if decide (k ∈ attrs) then boundary !! k else None) with
    | Some v => Some v
    | None => acc !! k
    end.
Proof.
  revert acc. induction attrs as [|a attrs IH]; intros acc; cbn [foldl].
  - destruct (decide (k ∈ [])) as [Hin|_]; [inversion Hin|reflexivity].
  - rewrite IH.
    assert (Hacc : match boundary !! a with
                   | Some v => <[a := v]> acc
                   | None => acc
                   end !! k
                   = match (if decide (k = a) then boundary !! k else None) with
                     | Some v => Some v
                     | None => acc !! k
                     end).
    { destruct (decide (k = a)) as [->|Hne].
      - destruct (boundary !! a); [apply lookup_insert_eq|reflexivity].
      - destruct (boundary !! a); [apply lookup_insert_ne; congruence|reflexivity]. }
    rewrite Hacc.
    destruct (decide (k ∈ attrs)) as [H1|H1], (decide (k ∈ a :: attrs)) as [H2|H2],
          (decide (k = a)) as [H3|H3];
      rewrite elem_of_cons in H2; try tauto; subst; destruct (boundary !! _); reflexivity.
Qed.

Lemma extract_metadata_declared_area (boundary : Base) (area : value) :
  boundary !! "area"%string = Some area ->
  (forall d, boundary !! "parameters"%string = Some (VDict d) -> d !! "area"%string = None) ->
  extract_metadata boundary !! "area"%string = Some area.
Proof.
  intros Harea Hparams. unfold extract_metadata.
  assert (Hmd : foldl (fun metadata attr =>
                         match boundary !! attr with
                         | Some v => <[attr := v]> metadata
                         | None => metadata
                         end) (∅ : gmap string value) preserve_attrs !! "area"%string
                = Some area).
  { rewrite preserved_lookup, Harea. reflexivity. }
  destruct (boundary !! "parameters"%string) as [[| | | | |d|]|] eqn:E; try exact Hmd.
  rewrite lookup_union, (Hparams d eq_refl), Hmd. reflexivity.
Qed.

(** A [parameters] dict with its own [area] entry overrides the declared
    area, and the boundary is converted. *)
Example parameters_override_area :
  let boundary :=
    <[ "parameters"%string := VDict {[ "area"%string := VNum 5 ]} ]> small_triangle_boundary in
  boundary !! "area"%string = Some (VNum 0.05) /\
  extract_metadata boundary !! "area"%string = Some (VNum 5) /\
  length (converted_surfaces (process_boundaries 0.01 0.1 [boundary])) = 1.
Proof. repeat split; vm_compute; reflexivity. Qed.

(** * Further properties of the code *)

(** ** Meshes made by [create_mesh_from_points] *)

Lemma as_floats_encode (vs : list float) : as_floats (VList (VNum <$> vs)) = Some vs.
Proof.
  unfold as_floats. apply mapM_Some.
  induction vs as [|v vs IH]; constructor; [reflexivity|exact IH].
Qed.

Lemma as_ints_encode (ns : list Z) : as_ints (VList (VInt <$> ns)) = Some ns.
Proof.
  unfold as_ints. apply mapM_Some.
  induction ns as [|n ns IH]; constructor; [reflexivity|exact IH].
Qed.

Lemma chunk3_mesh_vertices (pts : list Point) :
  chunk3 (mesh_vertices pts) = (fun p => (x p, y p, z p)) <$> pts.
Proof.
  unfold mesh_vertices. induction pts as [|p pts IH]; [reflexivity|].
  simpl. rewrite IH. reflexivity.
Qed.

Lemma chunk3_flat_map {A B} (u v w : A -> B) (l : list A) :
  chunk3 (flat_map (fun a => [u a; v a; w a]) l) = (fun a => (u a, v a, w a)) <$> l.
Proof.
  induction l as [|a l IH]; [reflexivity|].
  simpl. rewrite IH. reflexivity.
Qed.

Lemma vertex_at_encode (pts : list Point) (i : Z) :
  vertex_at (mesh_vertices pts) i
  = if (i <? 0)%Z then None else pts !! Z.to_nat i.
Proof.
  unfold vertex_at. destruct (i <? 0)%Z; [reflexivity|].
  rewrite chunk3_mesh_vertices, list_lookup_fmap.
  destruct (pts !! Z.to_nat i) as [[a b c]|]; reflexivity.
Qed.

(** X1. Reading the vertex list back gives the points: the coordinate
    triple at index [i] is the [i]-th point, there is none from the number
    of points on, and none at a negative index. *)
Theorem vertices_round_trip (pts : list Point) :
  (forall i : nat, vertex_at (mesh_vertices pts) (Z.of_nat i) = pts !! i) /\
  (forall i : nat, length pts <= i -> vertex_at (mesh_vertices pts) (Z.of_nat i) = None) /\
  (forall z : Z, (z < 0)%Z -> vertex_at (mesh_vertices pts) z = None).
Proof.
  assert (Hnat : forall i : nat, vertex_at (mesh_vertices pts) (Z.of_nat i) = pts !! i).
  { intros i. rewrite vertex_at_encode, Nat2Z.id.
    destruct (Z.of_nat i <? 0)%Z eqn:E; [|reflexivity].
    apply Z.ltb_lt in E. lia. }
  split; [exact Hnat|]. split.
  - intros i Hi. rewrite Hnat. apply lookup_ge_None. exact Hi.
  - intros z Hz. rewrite vertex_at_encode.
    apply Z.ltb_lt in Hz. rewrite Hz. reflexivity.
Qed.

Lemma fan_indices_length (s m : nat) :
  length (flat_map (fun i => [0; i; i + 1]%Z) (Z.of_nat <$> seq s m)) = 3 * m.
Proof.
  revert s. induction m as [|m IH]; intros s; simpl; [reflexivity|].
  rewrite IH. lia.
Qed.

(** X2. A mesh of [n] points has [3 n] coordinates and, from three points
    on, [n - 2] faces of three indices each; with fewer than three points
    it has no face. *)
Theorem mesh_sizes (pts : list Point) :
  length (mesh_vertices pts) = 3 * length pts /\
  length (mesh_faces pts) = 3 * (length pts - 2).
Proof.
  split.
  - unfold mesh_vertices. induction pts as [|p pts IH]; simpl; [reflexivity|].
    simpl in IH. lia.
  - unfold mesh_faces. destruct (3 <=? length pts)%nat eqn:E.
    + replace (length pts - 1 - 1) with (length pts - 2) by lia.
      apply fan_indices_length.
    + apply Nat.leb_gt in E. simpl. lia.
Qed.

(** X3. Every index in the face list is a valid vertex index: at least 0
    and below the number of points. *)
Theorem mesh_faces_in_range (pts : list Point) (i : Z) :
  i ∈ mesh_faces pts -> (0 <= i < Z.of_nat (length pts))%Z.
Proof.
  unfold mesh_faces. destruct (3 <=? length pts)%nat eqn:E; [|intros H; inversion H].
  apply Nat.leb_le in E. rewrite list_elem_of_In, in_flat_map.
  intros (j & Hj & Hi). apply list_elem_of_In, list_elem_of_fmap in Hj as (k & -> & Hk).
  apply list_elem_of_In, in_seq in Hk.
  simpl in Hi. destruct Hi as [<-|[<-|[<-|[]]]]; lia.
Qed.

Lemma mesh_faces_in_range_witness :
  (0 <= 3 < Z.of_nat (length unit_square))%Z.
Proof.
  apply (mesh_faces_in_range unit_square 3). vm_compute.
  repeat (first [apply list_elem_of_here | apply list_elem_of_further]).
Defined.

Lemma drop_cons_inv {A} (s : nat) (l : list A) (a : A) (r : list A) :
  drop s l = a :: r -> l !! s = Some a /\ drop (S s) l = r.
Proof.
  intros Hd.
  assert (Ha : l !! s = Some a).
  { rewrite <- (Nat.add_0_r s), <- lookup_drop, Hd. reflexivity. }
  split; [exact Ha|].
  rewrite (drop_S _ _ _ Ha) in Hd. congruence.
Qed.

Lemma fan_from (pts : list Point) (p0 : Point) :
  pts !! 0 = Some p0 ->
  forall rest s,
    drop s pts = rest ->
    mapM (fun '(i, j, k) =>
            a ← vertex_at (mesh_vertices pts) i;
            b ← vertex_at (mesh_vertices pts) j;
            c ← vertex_at (mesh_vertices pts) k;
            Some (a, b, c))
         ((fun i => (0, i, i + 1)%Z) <$> (Z.of_nat <$> seq s (length rest - 1)))
    = Some ((fun '(a, b) => (p0, a, b)) <$> zip rest (tail rest)).
Proof.
  intros H0 rest. induction rest as [|a [|b rest'] IH]; intros s Hd; try reflexivity.
  apply drop_cons_inv in Hd as [Ha Hd].
  pose proof (drop_cons_inv _ _ _ _ Hd) as [Hb _].
  specialize (IH (S s) Hd).
  replace (length (a :: b :: rest') - 1) with (S (length (b :: rest') - 1))
    by (simpl; lia).
  cbn [seq fmap list_fmap mapM tail zip zip_with].
  cbn [seq fmap list_fmap] in IH. rewrite IH.
  rewrite !vertex_at_encode.
  change (0 <? 0)%Z with false. cbn iota. change (Z.to_nat 0) with 0. rewrite H0.
  replace (Z.of_nat s <? 0)%Z with false by (symmetry; apply Z.ltb_ge; lia).
  replace (Z.of_nat s + 1 <? 0)%Z with false by (symmetry; apply Z.ltb_ge; lia).
  rewrite Nat2Z.id.
  replace (Z.to_nat (Z.of_nat s + 1)) with (S s) by lia.
  rewrite Ha, Hb. reflexivity.
Qed.

Lemma Mesh_vertices (vs : list float) (fs : list Z) :
  Mesh vs fs !! "vertices"%string = Some (VList (VNum <$> vs)).
Proof. unfold Mesh. rewrite lookup_insert_ne by discriminate. apply lookup_insert_eq. Qed.

Lemma Mesh_faces (vs : list float) (fs : list Z) :
  Mesh vs fs !! "faces"%string = Some (VList (VInt <$> fs)).
Proof. unfold Mesh. apply lookup_insert_eq. Qed.

(** X4. Read back, the mesh of any point list is the fan from its first
    point: the triangles (p0, p1, p2), (p0, p2, p3), ..., in that order; a
    list of fewer than three points gives a mesh without triangles. *)
Theorem mesh_triangles_fan (pts : list Point) :
  mesh_triangles (create_mesh_from_points pts) = Some (fan_triangles pts).
Proof.
  unfold mesh_triangles, create_mesh_from_points.
  rewrite Mesh_vertices, Mesh_faces.
  cbn [mbind option_bind]. rewrite as_floats_encode, as_ints_encode.
  cbn [mbind option_bind].
  unfold mesh_faces. destruct (3 <=? length pts)%nat eqn:E.
  - rewrite (chunk3_flat_map (fun _ => 0%Z) (fun i => i) (fun i => (i + 1)%Z)).
    destruct pts as [|p0 rest]; [discriminate|].
    replace (length (p0 :: rest) - 1 - 1) with (length rest - 1) by (simpl; lia).
    apply (fan_from (p0 :: rest) p0 eq_refl rest 1). reflexivity.
  - apply Nat.leb_gt in E.
    destruct pts as [|p0 [|p1 [|p2 rest]]]; try reflexivity. simpl in E. lia.
Qed.

(** ** The planarity test beyond its core *)

Lemma short_list_planar (tolerance : float) (pts : list Point) :
  length pts < 4 -> points_are_coplanar tolerance pts = Ok true.
Proof.
  intros Hlen. unfold points_are_coplanar.
  destruct (length pts <? 4)%nat eqn:E; [reflexivity|].
  apply Nat.ltb_ge in E. lia.
Qed.

Lemma points_answer (tolerance : float) (pts : list Point) :
  PrimFloat.ltb 0 tolerance = true ->
  exists planar, points_are_coplanar tolerance pts = Ok planar.
Proof.
  intros Hpos. destruct pts as [|p1 [|p2 [|p3 [|p rest]]]];
    try (exists true; apply short_list_planar; simpl; lia).
  rewrite points_are_coplanar_cases.
  set (len := vec_length _).
  destruct (PrimFloat.ltb len tolerance) eqn:Hlt; [eauto|].
  rewrite (positive_tolerance_no_zero_division _ _ Hpos Hlt). eauto.
Qed.

Lemma existsb_Permutation {A} (f : A -> bool) (l k : list A) :
  l ≡ₚ k -> existsb f l = existsb f k.
Proof.
  induction 1 as [|a l k _ IH|a b l|l k m _ IH1 _ IH2]; simpl.
  - reflexivity.
  - rewrite IH. reflexivity.
  - destruct (f a), (f b); reflexivity.
  - congruence.
Qed.

(** X6. Only the first three points matter by position: reordering the
    points after them does not change the answer. *)
Theorem points_are_coplanar_rest_order (tolerance : float) (p1 p2 p3 : Point)
    (rest rest' : list Point) :
  rest ≡ₚ rest' ->
  points_are_coplanar tolerance (p1 :: p2 :: p3 :: rest)
  = points_are_coplanar tolerance (p1 :: p2 :: p3 :: rest').
Proof.
  intros Hp. destruct rest as [|p rest], rest' as [|p' rest'].
  - reflexivity.
  - apply Permutation_nil_cons in Hp. contradiction.
  - symmetry in Hp. apply Permutation_nil_cons in Hp. contradiction.
  - rewrite !points_are_coplanar_cases.
    rewrite (existsb_Permutation _ _ _ Hp). reflexivity.
Qed.

Lemma points_are_coplanar_rest_order_witness :
  points_are_coplanar 0.01 [pt 0 0 0; pt 1 0 0; pt 1 1 0; pt 0 1 0; pt 0 1 1]
  = points_are_coplanar 0.01 [pt 0 0 0; pt 1 0 0; pt 1 1 0; pt 0 1 1; pt 0 1 0].
Proof.
  apply (points_are_coplanar_rest_order 0.01 (pt 0 0 0) (pt 1 0 0) (pt 1 1 0)
           [pt 0 1 0; pt 0 1 1] [pt 0 1 1; pt 0 1 0]).
  apply perm_swap.
Defined.

(** X7. Points added at the end can only turn a planar answer into a
    non-planar one: if a list extended by more points is reported planar,
    the list itself is. *)
Theorem points_are_coplanar_shorter (tolerance : float) (pts more : list Point) :
  points_are_coplanar tolerance (pts ++ more) = Ok true ->
  points_are_coplanar tolerance pts = Ok true.
Proof.
  destruct pts as [|p1 [|p2 [|p3 [|p rest]]]];
    try (intros _; apply short_list_planar; simpl; lia).
  change ((p1 :: p2 :: p3 :: p :: rest) ++ more)
    with (p1 :: p2 :: p3 :: p :: (rest ++ more)).
  rewrite !points_are_coplanar_cases.
  destruct (PrimFloat.ltb _ tolerance); [reflexivity|].
  destruct (PrimFloat.eqb _ 0); [discriminate|].
  change (p :: rest ++ more) with ((p :: rest) ++ more).
  rewrite existsb_app. destruct (existsb _ (p :: rest)); [discriminate|reflexivity].
Qed.

Lemma points_are_coplanar_shorter_witness :
  points_are_coplanar 0.01 [pt 0 0 0; pt 1 0 0; pt 1 1 0; pt 0 1 0] = Ok true.
Proof.
  apply (points_are_coplanar_shorter 0.01
           [pt 0 0 0; pt 1 0 0; pt 1 1 0; pt 0 1 0] [pt 2 2 0]).
  vm_compute. reflexivity.
Defined.

(** X8. For two curves or more the gate is the point test on the pooled
    points of the curves, taken curve by curve in order. *)
Theorem curves_are_coplanar_pooled (tolerance : float) (curves : list Curve) :
  2 <= length curves ->
  curves_are_coplanar tolerance curves
  = points_are_coplanar tolerance (loop_points curves).
Proof.
  intros Hlen. unfold curves_are_coplanar, loop_points.
  apply Nat.ltb_ge in Hlen. rewrite Hlen.
  destruct (length (flat_map get_curve_points curves) <? 3)%nat eqn:E; [|reflexivity].
  apply Nat.ltb_lt in E. symmetry. apply short_list_planar. lia.
Qed.

Lemma curves_are_coplanar_pooled_witness :
  curves_are_coplanar 0.01 triangle_loop
  = points_are_coplanar 0.01 (loop_points triangle_loop).
Proof. apply (curves_are_coplanar_pooled 0.01 triangle_loop). simpl. lia. Defined.

(** The same for the gate, on curves whose attributes hold points. *)
Lemma curves_answer (tolerance : float) (curves : list Curve) :
  PrimFloat.ltb 0 tolerance = true ->
  exists planar, curves_are_coplanar tolerance curves = Ok planar.
Proof.
  intros Hpos. unfold curves_are_coplanar.
  destruct (length curves <? 2)%nat; [eauto|].
  destruct (length _ <? 3)%nat; [eauto|].
  apply points_answer, Hpos.
Qed.

(** X5. With a positive tolerance the point test never raises: on every
    list of points it answers planar or non-planar. *)
Theorem points_are_coplanar_answers (tolerance : float) (pts : list Point) :
  PrimFloat.ltb 0 tolerance = true ->
  exists planar, points_are_coplanar tolerance pts = Ok planar.
Proof.
  intros Hpos. destruct pts as [|p1 [|p2 [|p3 [|p rest]]]];
    try (exists true; apply short_list_planar; simpl; lia).
  rewrite points_are_coplanar_plane.
  set (len := Plane.norm3 _).
  destruct (PrimFloat.ltb len tolerance) eqn:Hlt; [eauto|].
  rewrite (positive_tolerance_no_zero_division _ _ Hpos Hlt). eauto.
Qed.

Lemma points_are_coplanar_answers_witness :
  exists planar, points_are_coplanar 0.01 collinear_start = Ok planar.
Proof. apply (points_are_coplanar_answers 0.01 collinear_start). reflexivity. Defined.

(** ** Curve extraction, surfaces and metadata *)

Lemma extract_curves_foldl (boundary : Base) (attrs : list string) (acc : list Curve) :
  foldl
    (fun curves attr_name =>
       match boundary !! attr_name with
       | None => curves
       | Some (VList attr_value) => curves ++ omap as_curve attr_value
       | Some attr_value =>
           match as_curve attr_value with
           | Some c => curves ++ [c]
           | None => curves
           end
       end) acc attrs
  = acc ++ flat_map (curves_under boundary) attrs.
Proof.
  revert acc. induction attrs as [|a attrs IH]; intros acc; simpl.
  - rewrite app_nil_r. reflexivity.
  - rewrite IH. unfold curves_under.
    destruct (boundary !! a) as [v|]; [|reflexivity].
    assert (Hone : forall w,
               match as_curve w with Some c => acc ++ [c] | None => acc end
               = acc ++ option_list (as_curve w)).
    { intros w. destruct (as_curve w); simpl; [reflexivity|].
      rewrite app_nil_r. reflexivity. }
    destruct v; rewrite ?Hone, <- ?app_assoc; reflexivity.
Qed.

(** X9. The extractor looks under all five attributes and concatenates
    what it finds, in the order curves, outline, boundary, geometry,
    displayValue: it does not stop at the first attribute that holds
    curves, and an object listed twice is returned twice. *)
Theorem extract_curves_concat (boundary : Base) :
  extract_curves_from_boundary boundary
  = curves_under boundary "curves" ++ curves_under boundary "outline"
    ++ curves_under boundary "boundary" ++ curves_under boundary "geometry"
    ++ curves_under boundary "displayValue".
Proof.
  unfold extract_curves_from_boundary. rewrite extract_curves_foldl.
  simpl. rewrite app_nil_r. reflexivity.
Qed.

(** X10. Every curve-typed object in a list held under one of the five
    attributes is returned. *)
Theorem extract_curves_complete (boundary : Base) (attr_name : string)
    (attr_value : list value) (c : Curve) :
  attr_name ∈ possible_curve_attrs ->
  boundary !! attr_name = Some (VList attr_value) ->
  VBase c ∈ attr_value ->
  is_curve (VBase c) = true ->
  c ∈ extract_curves_from_boundary boundary.
Proof.
  intros Hattr Hlist Hc Hcurve.
  unfold extract_curves_from_boundary. rewrite extract_curves_foldl, app_nil_l.
  apply list_elem_of_In, in_flat_map. exists attr_name.
  split; [apply list_elem_of_In, Hattr|].
  apply list_elem_of_In. unfold curves_under. rewrite Hlist.
  apply list_elem_of_omap. exists (VBase c). split; [exact Hc|].
  unfold as_curve. rewrite Hcurve. reflexivity.
Qed.

Lemma extract_curves_complete_witness :
  line (pt 1 0 0) (pt 0 1 0) ∈ extract_curves_from_boundary (boundary_of triangle_loop).
Proof.
  apply (extract_curves_complete (boundary_of triangle_loop) "curves"
           (VBase <$> triangle_loop) (line (pt 1 0 0) (pt 0 1 0))).
  - apply list_elem_of_here.
  - reflexivity.
  - apply list_elem_of_further, list_elem_of_here.
  - reflexivity.
Defined.

(** X11. A boundary that has none of the five attributes yields no curve
    and is reported with the reason "No curves found", whatever else it
    holds. *)
Theorem no_curve_attribute_reported (tol thr : float) (st : state) (i : nat)
    (boundary : Base) :
  (forall attr_name, attr_name ∈ possible_curve_attrs -> boundary !! attr_name = None) ->
  extract_curves_from_boundary boundary = [] /\
  process_boundary tol thr st i boundary = add_failure st i NoCurvesFound.
Proof.
  intros Hnone.
  assert (Hex : extract_curves_from_boundary boundary = []).
  { unfold extract_curves_from_boundary. rewrite extract_curves_foldl.
    unfold possible_curve_attrs, curves_under in *. simpl.
    rewrite !Hnone; [reflexivity| |  | | |];
      repeat (first [apply list_elem_of_here | apply list_elem_of_further]). }
  split; [exact Hex|]. unfold process_boundary. rewrite Hex. reflexivity.
Qed.

Lemma no_curve_attribute_reported_witness :
  extract_curves_from_boundary small_area_without_curves = [] /\
  process_boundary 0.01 0.1 (mkState [] []) 0 small_area_without_curves
  = add_failure (mkState [] []) 0 NoCurvesFound.
Proof.
  apply (no_curve_attribute_reported 0.01 0.1 (mkState [] []) 0 small_area_without_curves).
  intros attr_name Hin. unfold possible_curve_attrs in Hin.
  repeat (apply elem_of_cons in Hin as [->|Hin]; [reflexivity|]). inversion Hin.
Defined.

(** X13. The extracted metadata holds, for each name: the entry of the
    [parameters] dict when that is a dict with such an entry; otherwise
    the boundary's attribute when the name is one of the twelve preserved
    ones; otherwise nothing. *)
Theorem extract_metadata_lookup (boundary : Base) (k : string) :
  extract_metadata boundary !! k =
  match match boundary !! "parameters"%string with
        | Some (VDict parameters) => parameters !! k
        | _ => None
        end with
  | Some v => Some v
  | None => if decide (k ∈ preserve_attrs) then boundary !! k else None
  end.
Proof.
  unfold extract_metadata.
  assert (Hmd : foldl (fun metadata attr =>
                         match boundary !! attr with
                         | Some v => <[attr := v]> metadata
                         | None => metadata
                         end) (∅ : gmap string value) preserve_attrs !! k
                = if decide (k ∈ preserve_attrs) then boundary !! k else None).
  { rewrite preserved_lookup, lookup_empty.
    destruct (decide (k ∈ preserve_attrs)); [destruct (boundary !! k)|]; reflexivity. }
  destruct (boundary !! "parameters"%string) as [[| | | | |d|]|]; try exact Hmd.
  rewrite lookup_union, Hmd.
  destruct (d !! k), (decide (k ∈ preserve_attrs)); try reflexivity;
    destruct (boundary !! k); reflexivity.
Qed.

(** ** The batch loop *)

(** What a boundary adds to the results depends on the boundary alone. *)
Lemma process_boundary_step (tol thr : float) (st : state) (i : nat)
    (boundary : Base) :
  process_boundary tol thr st i boundary
  = record_outcome st i (boundary_outcome tol thr boundary).
Proof.
  unfold process_boundary, boundary_outcome.
  destruct (extract_curves_from_boundary boundary) as [|c cs]; [reflexivity|].
  destruct (curves_are_coplanar tol (c :: cs)) as [[|]|e]; try reflexivity.
  destruct (below_area_threshold thr (extract_metadata boundary)) as [[|]|e];
    try reflexivity.
  unfold group_curves_into_loops. simpl foldl.
  destruct (create_surface_from_curves (c :: cs) (extract_metadata boundary));
    reflexivity.
Qed.

Lemma process_from_spec (tol thr : float) (boundaries : list Base)
    (st : state) (i : nat) :
  let outcomes := boundary_outcome tol thr <$> boundaries in
  process_from tol thr st i boundaries
  = mkState
      (converted_surfaces st ++ omap surface_of outcomes)
      (failed_conversions st ++
       omap failure_of (zip (seq i (length boundaries)) outcomes)).
Proof.
  revert st i. induction boundaries as [|b bs IH]; intros st i.
  - simpl. rewrite !app_nil_r. destruct st; reflexivity.
  - cbn zeta in IH |- *. cbn [process_from]. rewrite IH, process_boundary_step.
    cbn [fmap list_fmap length seq zip zip_with omap list_omap].
    unfold failure_of at 2. cbn [fst snd].
    destruct (boundary_outcome tol thr b); simpl; rewrite <- ?app_assoc; reflexivity.
Qed.

(** X14. A batch is its boundaries' outcomes put together, each boundary
    adding nothing, one failure or one surface whatever came before it:
    the surfaces are those of the converted boundaries, in boundary
    order, and the failures those of the failed boundaries, each under
    the position of its boundary. *)
Theorem batch_outcomes (tol thr : float) (boundaries : list Base) :
  let outcomes := boundary_outcome tol thr <$> boundaries in
  converted_surfaces (process_boundaries tol thr boundaries)
  = omap surface_of outcomes /\
  failed_conversions (process_boundaries tol thr boundaries)
  = omap failure_of (zip (seq 0 (length boundaries)) outcomes).
Proof.
  intros outcomes. unfold process_boundaries, outcomes.
  rewrite process_from_spec. split; reflexivity.
Qed.

Lemma outcome_counts (os : list outcome) (i : nat) :
  length (omap surface_of os) + length (omap failure_of (zip (seq i (length os)) os))
  <= length os.
Proof.
  revert i. induction os as [|o os IH]; intros i; simpl; [lia|].
  specialize (IH (S i)). unfold failure_of at 1. simpl.
  unfold omap in IH. destruct o; simpl; lia.
Qed.

(** X16. No boundary is counted twice: the surfaces and the failures of a
    batch together are at most as many as its boundaries (a boundary
    skipped in silence is in neither list). *)
Theorem batch_accounting (tol thr : float) (boundaries : list Base) :
  length (converted_surfaces (process_boundaries tol thr boundaries))
  + length (failed_conversions (process_boundaries tol thr boundaries))
  <= length boundaries.
Proof.
  unfold process_boundaries. rewrite process_from_spec. simpl.
  pose proof (outcome_counts (boundary_outcome tol thr <$> boundaries) 0) as H.
  rewrite length_fmap in H. exact H.
Qed.

Lemma failure_of_zip (os : list outcome) (i j : nat) (r : failure_reason) :
  (j, r) ∈ omap failure_of (zip (seq i (length os)) os) ->
  i <= j /\ os !! (j - i) = Some (Failed r).
Proof.
  revert i. induction os as [|o os IH]; intros i; simpl; [intros H; inversion H|].
  unfold failure_of at 1. simpl.
  assert (Htail : (j, r) ∈ omap failure_of (zip (seq (S i) (length os)) os) ->
                  i <= j /\ (o :: os) !! (j - i) = Some (Failed r)).
  { intros H. apply IH in H as [Hle Hl]. split; [lia|].
    replace (j - i) with (S (j - S i)) by lia. exact Hl. }
  destruct o; try exact Htail.
  rewrite elem_of_cons. intros [[= -> ->]|H]; [|exact (Htail H)].
  split; [lia|]. rewrite Nat.sub_diag. reflexivity.
Qed.

Lemma failure_traced (tol thr : float) (boundaries : list Base)
    (j : nat) (r : failure_reason) :
  (j, r) ∈ failed_conversions (process_boundaries tol thr boundaries) ->
  exists boundary,
    boundaries !! j = Some boundary /\ boundary_outcome tol thr boundary = Failed r.
Proof.
  unfold process_boundaries. rewrite process_from_spec. simpl.
  rewrite <- (length_fmap (boundary_outcome tol thr) boundaries).
  intros H. apply failure_of_zip in H as [_ Hl].
  rewrite Nat.sub_0_r, list_lookup_fmap in Hl.
  destruct (boundaries !! j) as [b|]; [|discriminate].
  exists b. split; [reflexivity|]. simpl in Hl. congruence.
Qed.

(** X17. Every failure entry of a batch names a boundary of the batch by
    its position, and its reason is the outcome of that very boundary. *)
Theorem batch_failures_traceable (tol thr : float) (boundaries : list Base)
    (j : nat) (r : failure_reason) :
  (j, r) ∈ failed_conversions (process_boundaries tol thr boundaries) ->
  j < length boundaries /\
  exists boundary,
    boundaries !! j = Some boundary /\ boundary_outcome tol thr boundary = Failed r.
Proof.
  intros H. apply failure_traced in H as (b & Hb & Ho).
  split; [apply (lookup_lt_Some _ _ _ Hb)|].
  exists b. split; assumption.
Qed.

Lemma batch_failures_traceable_witness :
  1 < length [small_triangle_boundary; small_area_without_curves] /\
  exists boundary,
    [small_triangle_boundary; small_area_without_curves] !! 1 = Some boundary /\
    boundary_outcome 0.01 0.1 boundary = Failed NoCurvesFound.
Proof.
  apply (batch_failures_traceable 0.01 0.1
           [small_triangle_boundary; small_area_without_curves] 1 NoCurvesFound).
  vm_compute. apply list_elem_of_here.
Defined.

(** X18. Every surface of a batch is the surface of one of its boundaries,
    and carries the two provenance attributes. *)
Theorem batch_surfaces_provenance (tol thr : float) (boundaries : list Base)
    (surface : Base) :
  surface ∈ converted_surfaces (process_boundaries tol thr boundaries) ->
  (exists boundary,
     boundary ∈ boundaries /\
     create_surface_from_curves (extract_curves_from_boundary boundary)
       (extract_metadata boundary) = Some surface) /\
  surface !! "converted_from"%string = Some (VStr "AreaBoundary") /\
  surface !! "speckle_type"%string = Some (VStr "Objects.Geometry.Mesh").
Proof.
  unfold process_boundaries. rewrite process_from_spec. simpl.
  rewrite list_elem_of_omap. intros (o & Ho & Hs).
  apply list_elem_of_fmap in Ho as (b & -> & Hb).
  assert (Hcreate : create_surface_from_curves (extract_curves_from_boundary b)
                      (extract_metadata b) = Some surface).
  { unfold boundary_outcome in Hs.
    destruct (extract_curves_from_boundary b) as [|c cs]; [discriminate|].
    destruct (curves_are_coplanar tol (c :: cs)) as [[|]|e]; try discriminate.
    destruct (below_area_threshold thr (extract_metadata b)) as [[|]|e]; try discriminate.
    destruct (create_surface_from_curves (c :: cs) (extract_metadata b)); [|discriminate].
    simpl in Hs. congruence. }
  split; [eauto|].
  unfold create_surface_from_curves in Hcreate.
  destruct (length _ <? 3)%nat; [discriminate|]. injection Hcreate as <-.
  rewrite !mark_converted_lookup. split; reflexivity.
Qed.

Lemma batch_surfaces_provenance_witness :
  (exists boundary,
     boundary ∈ [boundary_of [collapsed_polyline]] /\
     create_surface_from_curves (extract_curves_from_boundary boundary)
       (extract_metadata boundary)
     = create_surface_from_curves [collapsed_polyline] ∅) /\
  (default (∅ : Base) (create_surface_from_curves [collapsed_polyline] ∅))
    !! "converted_from"%string = Some (VStr "AreaBoundary") /\
  (default (∅ : Base) (create_surface_from_curves [collapsed_polyline] ∅))
    !! "speckle_type"%string = Some (VStr "Objects.Geometry.Mesh").
Proof.
  apply (batch_surfaces_provenance 0.01 0.1 [boundary_of [collapsed_polyline]]
           (default (∅ : Base) (create_surface_from_curves [collapsed_polyline] ∅))).
  vm_compute. apply list_elem_of_here.
Defined.

(** X19. With a positive tolerance no failure of a batch is a division by
    zero. *)
Theorem batch_no_division_by_zero (tol thr : float) (boundaries : list Base)
    (j : nat) (r : failure_reason) :
  PrimFloat.ltb 0 tol = true ->
  (j, r) ∈ failed_conversions (process_boundaries tol thr boundaries) ->
  r <> Exception ZeroDivisionError.
Proof.
  intros Hpos H ->. apply failure_traced in H as (b & _ & Hb).
  unfold boundary_outcome in Hb.
  destruct (extract_curves_from_boundary b) as [|c cs]; [discriminate|].
  destruct (curves_answer tol (c :: cs) Hpos) as [planar Hplanar].
  rewrite Hplanar in Hb. destruct planar; [|discriminate].
  unfold below_area_threshold in Hb.
  destruct (extract_metadata b !! "area"%string) as [area|].
  - destruct area; simpl in Hb; try discriminate;
      match type of Hb with
      | context [if ?c then _ else _] => destruct c
      end;
      try discriminate;
      destruct (create_surface_from_curves _ _); discriminate.
  - destruct (create_surface_from_curves _ _); discriminate.
Qed.

Lemma batch_no_division_by_zero_witness :
  NoCurvesFound <> Exception ZeroDivisionError.
Proof.
  apply (batch_no_division_by_zero 0.01 0.1 [small_area_without_curves] 0 NoCurvesFound).
  - reflexivity.
  - vm_compute. apply list_elem_of_here.
Defined.

(** ** The run as a whole *)

Lemma prefix_app_l (a b s : string) :
  String.prefix (a ++ b) s = true -> String.prefix a s = true.
Proof.
  revert s. induction a as [|ch a IH]; intros s H.
  - destruct s; reflexivity.
  - destruct s as [|ch' s]; simpl in *; [discriminate|].
    destruct (Ascii.ascii_dec ch ch'); [apply IH, H|discriminate].
Qed.

Lemma contains_unfold (needle hay : string) :
  contains needle hay
  = String.prefix needle hay
    || match hay with
       | EmptyString => false
       | String _ hay' => contains needle hay'
       end.
Proof.
  destruct hay as [|ch hay]; simpl.
  - destruct (String.prefix needle ""); reflexivity.
  - destruct (String.prefix needle (String ch hay)); reflexivity.
Qed.

Lemma contains_app_l (a b s : string) :
  contains (a ++ b) s = true -> contains a s = true.
Proof.
  induction s as [|ch s IH];
    rewrite (contains_unfold (a ++ b)), (contains_unfold a), !orb_true_iff;
    intros [H|H].
  - left. exact (prefix_app_l _ _ _ H).
  - discriminate H.
  - left. exact (prefix_app_l _ _ _ H).
  - right. exact (IH H).
Qed.

(** X20. The test for "AreaBoundary" in the boundary filter adds nothing:
    an object is taken as a boundary exactly when its type contains
    "Area". *)
Theorem is_area_type_Area (speckle_type : string) :
  is_area_type speckle_type = contains "Area" speckle_type.
Proof.
  unfold is_area_type.
  destruct (contains "AreaBoundary" speckle_type) eqn:E; [|reflexivity].
  symmetry. apply (contains_app_l "Area" "Boundary"). exact E.
Qed.

Ltac calls_membership :=
  rewrite ?elem_of_app, ?elem_of_cons, ?elem_of_nil;
  intuition (try discriminate; simplify_eq; simpl; try done; try lia).

(** X21. When no object is an area boundary the run is marked failed for
    want of boundaries and nothing else is done: no version, no report,
    no context view. *)
Theorem run_without_boundaries (function_inputs : FunctionInputs)
    (all_objects : list Base) :
  (forall obj, obj ∈ all_objects -> is_area_boundary obj = false) ->
  automate_function function_inputs all_objects = [MarkRunFailed NoBoundariesFound].
Proof.
  intros Hnone. unfold automate_function.
  destruct (List.filter is_area_boundary all_objects) as [|b bs] eqn:E; [reflexivity|].
  assert (Hb : In b (List.filter is_area_boundary all_objects)) by (rewrite E; left; reflexivity).
  apply filter_In in Hb as [Hin Hb]. apply list_elem_of_In in Hin.
  rewrite (Hnone b Hin) in Hb. discriminate.
Qed.

Lemma run_without_boundaries_witness :
  automate_function default_inputs [boundary_of triangle_loop]
  = [MarkRunFailed NoBoundariesFound].
Proof.
  apply (run_without_boundaries default_inputs [boundary_of triangle_loop]).
  intros obj Hin. apply list_elem_of_singleton in Hin. subst obj. reflexivity.
Defined.

(** X22. The run is marked successful exactly when at least one surface was
    converted, with the number of surfaces; then a version is created
    whose objects are the boundaries (when the originals are preserved)
    followed by the surfaces. *)
Theorem run_success (function_inputs : FunctionInputs) (all_objects : list Base)
    (n : nat) :
  let boundaries := List.filter is_area_boundary all_objects in
  let surfaces :=
    converted_surfaces
      (process_boundaries (surface_tolerance function_inputs)
         (min_area_threshold function_inputs) boundaries) in
  let calls := automate_function function_inputs all_objects in
  (MarkRunSuccess n ∈ calls <-> 0 < n /\ n = length surfaces) /\
  (MarkRunSuccess n ∈ calls ->
     CreateVersion
       ((if preserve_original function_inputs then boundaries else []) ++ surfaces) n
     ∈ calls /\
     forall why, MarkRunFailed why ∉ calls).
Proof.
  intros boundaries surfaces calls. unfold calls, automate_function.
  fold boundaries. destruct boundaries as [|b bs] eqn:E.
  - unfold surfaces. simpl. split; [|calls_membership].
    split; [calls_membership|]. intros [H ->]. simpl in H. lia.
  - fold surfaces. destruct surfaces as [|s ss] eqn:Es.
    + split; [|destruct (failed_conversions _); calls_membership].
      split; [destruct (failed_conversions _); calls_membership|].
      intros [H ->]. simpl in H. lia.
    + split; [split|].
      * destruct (failed_conversions _); calls_membership.
      * intros [_ ->]. apply elem_of_app. left.
        apply list_elem_of_further, list_elem_of_further, list_elem_of_here.
      * intros H.
        assert (Hn : n = length (s :: ss))
          by (destruct (failed_conversions _); revert H; calls_membership).
        subst n. split; [apply elem_of_app; left; apply list_elem_of_here|].
        intros why. destruct (failed_conversions _); calls_membership.
Qed.

(** X23. An error is attached exactly when some boundary failed, also on a
    successful run; it gives the number of all failures and quotes the
    first three of them at most. *)
Theorem run_error_report (function_inputs : FunctionInputs) (all_objects : list Base)
    (m : nat) (quoted : list (nat * failure_reason)) :
  let failures :=
    failed_conversions
      (process_boundaries (surface_tolerance function_inputs)
         (min_area_threshold function_inputs)
         (List.filter is_area_boundary all_objects)) in
  AttachError m quoted ∈ automate_function function_inputs all_objects <->
  failures <> [] /\ m = length failures /\ quoted = take 3 failures.
Proof.
  intros failures. subst failures. unfold automate_function.
  destruct (List.filter is_area_boundary all_objects) as [|b bs].
  - simpl. calls_membership.
  - destruct (converted_surfaces _), (failed_conversions _) as [|f fs];
      calls_membership.
Qed.

(** The option [merge_holes] is never read: two runs whose inputs differ
    in it alone make the same calls. *)
Remark merge_holes_ignored (tol thr : float) (preserve holes holes' : bool)
    (all_objects : list Base) :
  automate_function (mkInputs tol preserve holes thr) all_objects
  = automate_function (mkInputs tol preserve holes' thr) all_objects.
Proof. reflexivity. Qed.

(** X24. A run in which every boundary is skipped in silence (below the
    area threshold, or with fewer than three points) is marked failed
    because nothing was converted, and no error says why. *)
Theorem run_all_skipped (function_inputs : FunctionInputs) (all_objects : list Base) :
  List.filter is_area_boundary all_objects <> [] ->
  (forall boundary,
     boundary ∈ List.filter is_area_boundary all_objects ->
     boundary_outcome (surface_tolerance function_inputs)
       (min_area_threshold function_inputs) boundary = Skipped) ->
  automate_function function_inputs all_objects
  = [MarkRunFailed NothingConverted; SetContextView].
Proof.
  intros Hne Hskip. unfold automate_function, process_boundaries.
  rewrite process_from_spec. cbn [converted_surfaces failed_conversions app].
  set (boundaries := List.filter is_area_boundary all_objects) in *.
  assert (Hall : boundary_outcome (surface_tolerance function_inputs)
                   (min_area_threshold function_inputs) <$> boundaries
                 = replicate (length boundaries) Skipped).
  { clearbody boundaries. clear Hne.
    induction boundaries as [|b bs IH]; [reflexivity|].
    rewrite fmap_cons, (Hskip b) by apply list_elem_of_here.
    rewrite IH; [reflexivity|]. intros b' Hb'. apply Hskip, list_elem_of_further, Hb'. }
  rewrite Hall.
  assert (Hs : forall k, omap surface_of (replicate k Skipped) = []).
  { induction k as [|k IH]; [reflexivity|exact IH]. }
  assert (Hf : forall k i, omap failure_of (zip (seq i k) (replicate k Skipped)) = []).
  { induction k as [|k IH]; intros i; [reflexivity|apply IH]. }
  rewrite Hs, Hf. destruct boundaries; [contradiction|reflexivity].
Qed.

Lemma run_all_skipped_witness :
  automate_function default_inputs [small_area_object]
  = [MarkRunFailed NothingConverted; SetContextView].
Proof.
  apply (run_all_skipped default_inputs [small_area_object]).
  - vm_compute. discriminate.
  - intros boundary Hin.
    change (List.filter is_area_boundary [small_area_object]) with [small_area_object] in Hin.
    apply list_elem_of_singleton in Hin. subst boundary. vm_compute. reflexivity.
Defined.
